(** * Spam filter scripts [kmkh_1.0.py] and [kmkh_1.1.py]

    A shallow embedding of the two scripts: the toy dataset, the training
    section, the artifact files and the [/predict/] handlers.  Python values
    are modelled as follows: [str] and [bytes] are Rocq byte strings (a [str]
    is held in its UTF-8 encoding), Python lists are lists, dicts are [gmap]s,
    floats are rationals, and exceptions are the left summand of a result. *)

From Stdlib Require Import Ascii String NArith QArith Qround Qabs.
From stdpp Require Import gmap strings list.

Local Open Scope string_scope.
Local Open Scope list_scope.

(** ** Python runtime: exceptions and results *)

Module Py.

(** The exceptions that can surface in the scripts.  The last five are the
    classified failures named by the specification; the others are the
    Python and library exceptions. *)
Inductive Exn : Type :=
| NameError (name : string)
| ValueError (msg : string)
| NotFittedError
| IndexError
| AttributeError (attr : string)
| EmptyCorpusError
| DegenerateDatasetError
| ArtifactNotFoundError (name : string)
| ModelNotReadyError
| InvalidInputError.

(** [inl e] is a raised exception, [inr a] a returned value. *)
Definition Result (A : Type) : Type := (Exn + A)%type.

(** [l * n] on a Python list. *)
Definition list_mul {A} (l : list A) (n : nat) : list A :=
  concat (replicate n l).

(** [b.decode("utf-8", errors="ignore")].  A [str] is held in its UTF-8
    encoding, so decoding keeps each well-formed sequence as it stands and
    drops what the decoder reports as an error: an invalid start byte (one
    byte), a lead byte whose k-th continuation byte is wrong (the k bytes
    before it), or a sequence cut short by the end of the data (all of it). *)
Definition is_continuation (c : ascii) : bool :=
  (128 <=? N_of_ascii c)%N && (N_of_ascii c <? 192)%N.

Fixpoint decode_utf8_ignore (s : string) : string :=
  match s with
  | EmptyString => EmptyString
  | String c0 rest =>
    let ch := N_of_ascii c0 in
    if (ch <? 128)%N then String c0 (decode_utf8_ignore rest)
    else if (ch <? 194)%N then decode_utf8_ignore rest
    else if (ch <? 224)%N then
      match rest with
      | EmptyString => EmptyString
      | String c1 rest1 =>
        if is_continuation c1
        then String c0 (String c1 (decode_utf8_ignore rest1))
        else decode_utf8_ignore rest
      end
    else if (ch <? 240)%N then
      match rest with
      | EmptyString => EmptyString
      | String c1 rest1 =>
        if negb (is_continuation c1)
           || (if (N_of_ascii c1 <? 160)%N then (ch =? 224)%N else (ch =? 237)%N)
        then decode_utf8_ignore rest
        else
          match rest1 with
          | EmptyString => EmptyString
          | String c2 rest2 =>
            if is_continuation c2
            then String c0 (String c1 (String c2 (decode_utf8_ignore rest2)))
            else decode_utf8_ignore rest1
          end
      end
    else if (ch <? 245)%N then
      match rest with
      | EmptyString => EmptyString
      | String c1 rest1 =>
        if negb (is_continuation c1)
           || (if (N_of_ascii c1 <? 144)%N then (ch =? 240)%N else (ch =? 244)%N)
        then decode_utf8_ignore rest
        else
          match rest1 with
          | EmptyString => EmptyString
          | String c2 rest2 =>
            if negb (is_continuation c2) then decode_utf8_ignore rest1
            else
              match rest2 with
              | EmptyString => EmptyString
              | String c3 rest3 =>
                if is_continuation c3
                then String c0 (String c1 (String c2 (String c3 (decode_utf8_ignore rest3))))
                else decode_utf8_ignore rest2
              end
          end
      end
    else decode_utf8_ignore rest
  end.

(** The classified failures of the specification. *)
Definition classified (e : Exn) : bool :=
  match e with
  | EmptyCorpusError | DegenerateDatasetError | ArtifactNotFoundError _
  | ModelNotReadyError | InvalidInputError => true
  | _ => false
  end.

(** A response carries a label when one of its fields is exactly
    ["spam"] or ["ham"]. *)
Definition has_label (resp : gmap string string) : Prop :=
  ∃ k, resp !! k = Some "spam" ∨ resp !! k = Some "ham".

(** A byte string of ASCII bytes only. *)
Fixpoint all_ascii (s : string) : bool :=
  match s with
  | EmptyString => true
  | String c rest => (N_of_ascii c <? 128)%N && all_ascii rest
  end.

End Py.
Import Py.

(** ** The dataset (lines 15-34 of 1.0, 13-32 of 1.1; identical text) *)

Definition spam_texts : list string := list_mul [
    "Congratulations! You won a free lottery ticket.";
    "Claim your free prize now!!!";
    "You have been selected for a cash reward.";
    "Win big money today, click here!";
    "Urgent! Update your bank details immediately."
  ] 60.

Definition ham_texts : list string := list_mul [
    "Hi John, are we still meeting tomorrow?";
    "Please find the attached project report.";
    "Let's have lunch at 1pm.";
    "Your order has been shipped and will arrive soon.";
    "Thanks for your help yesterday."
  ] 60.

(** A two-column frame.  [pd.DataFrame] of a dict of lists raises
    [ValueError] when the columns differ in length. *)
Record DataFrame : Type := mkDataFrame {
  col_text : list string;
  col_label : list Z
}.

Definition pd_DataFrame (text : list string) (label : list Z) : Result DataFrame :=
  if decide (length text = length label)
  then inr (mkDataFrame text label)
  else inl (ValueError "All arrays must be of the same length").

Definition data : Result DataFrame :=
  pd_DataFrame (spam_texts ++ ham_texts)
               (list_mul [1%Z] 300 ++ list_mul [0%Z] 300).

(** The rows of a frame: (Document, Label) pairs in order. *)
Definition rows (d : DataFrame) : list (string * Z) :=
  zip (col_text d) (col_label d).

(** ** Python values of the two scripts *)

(** A pandas Series: the values in positional order, each with its index
    label.  [data["text"]] carries the labels [0 .. n-1]; a selection by
    position keeps the labels of the selected rows. *)
Definition Series (A : Type) : Type := list (nat * A).

Definition series {A} (l : list A) : Series A := imap (λ i x, (i, x)) l.
Definition index {A} (s : Series A) : list nat := s.*1.
Definition values {A} (s : Series A) : list A := s.*2.

(** [s.iloc[idx]]: positional selection, [IndexError] out of range. *)
Definition iloc {A} (s : Series A) (idx : list nat) : Result (Series A) :=
  match mapM (λ i, s !! i) idx with
  | Some r => inr r
  | None => inl IndexError
  end.

(** A feature matrix: its column count and its rows. *)
Record Matrix : Type := mkMatrix {
  n_features : nat;
  m_rows : list (list Q)
}.

(** The fitted state of the two estimators. *)
Record FittedVectorizer : Type := mkFittedVectorizer {
  vocabulary_ : gmap string nat;
  idf_ : list Q
}.

Record FittedClassifier : Type := mkFittedClassifier {
  coef_ : list Q;
  intercept_ : Q
}.

(** An estimator object; [None] is a constructed, not yet fitted one. *)
Inductive Obj : Type :=
| TfidfVectorizer (st : option FittedVectorizer)
| LogisticRegression (C : Q) (max_iter : nat) (st : option FittedClassifier).

(** What a module-level name can be bound to. *)
Inductive PyVal : Type :=
| VFrame (d : DataFrame)
| VText (s : Series string)
| VLabels (s : Series Z)
| VMatrix (m : Matrix)
| VArray (l : list Z)
| VObj (o : Obj)
| VApp (routes : list string)
| VFunction (name : string).

(** ** The libraries

    scikit-learn, numpy and joblib are not part of the repository.  Their
    numeric kernels and the serializer are parameters; the estimator
    methods built on them below follow the component contracts of the
    specification. *)
Class Libs : Type := {
  (** numpy: a generator state, [RandomState(seed)], [rng.permutation(n)]
      and the state it leaves behind. *)
  RNG : Type;
  RandomState : Z → RNG;
  permutation : RNG → nat → list nat;
  rng_next : RNG → nat → RNG;
  permutation_perm : ∀ r n, permutation r n ≡ₚ seq 0 n;
  (** The tokenisation policy of the vectorizer. *)
  analyze : string → list string;
  (** IDF weight from the corpus size and a document frequency. *)
  idf_weight : nat → nat → Q;
  (** The iterative optimizer: regularisation strength [C], iteration cap,
      training matrix and labels to fitted weights. *)
  lbfgs : Q → nat → Matrix → list Z → FittedClassifier;
  lbfgs_dim : ∀ C it X y, length (coef_ (lbfgs C it X y)) = n_features X;
  (** The logistic link, as the float routine computes it. *)
  expit : Q → Q;
  (** [classification_report(y_true, y_pred)]. *)
  classification_report : list Z → list Z → string;
  (** The serializer behind [joblib.dump] / [joblib.load]. *)
  Blob : Type;
  pickle : PyVal → Blob;
  unpickle : Blob → option PyVal;
  unpickle_pickle : ∀ o, unpickle (pickle o) = Some o
}.

Section Model.
Context `{Libs}.

(** ** The process: files, the numpy global generator, standard output and
    the module namespace *)

Record Process : Type := mkProcess {
  fs : gmap string Blob;
  np_random : RNG;
  stdout : list string;
  globals : gmap string PyVal
}.

(** A fresh interpreter: whatever files and generator state there are,
    nothing printed, no name bound. *)
Definition boot (files : gmap string Blob) (rng : RNG) : Process :=
  mkProcess files rng [] ∅.

(** Statements run against the process; a raised exception leaves the
    process as it was at the point of the raise. *)
Definition M (A : Type) : Type := Process → Result A * Process.

#[global] Instance M_ret : MRet M := λ A a p, (inr a, p).
#[global] Instance M_bind : MBind M := λ A B f m p,
  match m p with
  | (inr a, p') => f a p'
  | (inl e, p') => (inl e, p')
  end.

Definition raise {A} (e : Exn) : M A := λ p, (inl e, p).
Definition lift {A} (r : Result A) : M A := λ p, (r, p).

Definition global (name : string) : M PyVal := λ p,
  match globals p !! name with
  | Some v => (inr v, p)
  | None => (inl (NameError name), p)
  end.

Definition with_global (name : string) (v : PyVal) (p : Process) : Process :=
  mkProcess (fs p) (np_random p) (stdout p) (<[name := v]> (globals p)).

Definition assign (name : string) (v : PyVal) : M () := λ p,
  (inr (), with_global name v p).

Definition with_stdout (line : string) (p : Process) : Process :=
  mkProcess (fs p) (np_random p) (stdout p ++ [line]) (globals p).

Definition print (line : string) : M () := λ p,
  (inr (), with_stdout line p).

(** A method call on the object bound to [name]: the method sees the
    object and returns its result with the object as the call leaves it. *)
Definition call {A} (name attr : string) (method : Obj → Result (A * Obj)) : M A :=
  v ← global name;
  match v with
  | VObj o =>
      match method o with
      | inr (a, o') => assign name (VObj o');; mret a
      | inl e => raise e
      end
  | _ => raise (AttributeError attr)
  end.

(** ** Vectorizer (specification 4.1) *)

Definition bump (i : nat) (c : gmap nat nat) : gmap nat nat :=
  <[i := S (default 0 (c !! i))]> c.

(** One document: every token is looked up in the vocabulary.  A known
    token is counted.  An unknown one is given the next free index while
    fitting, and is skipped when the vocabulary is fixed. *)
Fixpoint count_tokens (fixed : bool) (tokens : list string)
    (vocab : gmap string nat) (c : gmap nat nat) : gmap string nat * gmap nat nat :=
  match tokens with
  | [] => (vocab, c)
  | t :: ts =>
      match vocab !! t with
      | Some i => count_tokens fixed ts vocab (bump i c)
      | None =>
          if fixed then count_tokens fixed ts vocab c
          else count_tokens fixed ts (<[t := size vocab]> vocab) (bump (size vocab) c)
      end
  end.

Fixpoint count_vocab (fixed : bool) (docs : list string)
    (vocab : gmap string nat) : gmap string nat * list (gmap nat nat) :=
  match docs with
  | [] => (vocab, [])
  | d :: ds =>
      let '(v1, c) := count_tokens fixed (analyze d) vocab ∅ in
      let '(v2, cs) := count_vocab fixed ds v1 in
      (v2, c :: cs)
  end.

(** Document frequency of vocabulary entry [i]. *)
Definition doc_freq (counts : list (gmap nat nat)) (i : nat) : nat :=
  length (filter (λ c, is_Some (c !! i)) counts).

(** Entry [i] of a row is the TF-IDF weight of entry [i], 0 if absent. *)
Definition tfidf_row (idf : list Q) (c : gmap nat nat) : list Q :=
  imap (λ i w, Qmult (inject_Z (Z.of_nat (default 0 (c !! i)))) w) idf.

Definition tfidf_matrix (idf : list Q) (counts : list (gmap nat nat)) : Matrix :=
  mkMatrix (length idf) (tfidf_row idf <$> counts).

(** Modelled from the spec: [Vectorizer.fit] (scikit-learn's
    [TfidfVectorizer.fit_transform], not under src/).  Builds the Vocabulary
    from all tokens observed across the documents, computes IDF per entry
    from the document frequency, and fails with [EmptyCorpusError] if the
    documents are empty or yield zero distinct tokens. *)
Definition vec_fit (docs : list string) : Result (FittedVectorizer * Matrix) :=
  let '(vocab, counts) := count_vocab false docs ∅ in
  if decide (vocab = ∅) then inl EmptyCorpusError
  else
    let idf := (λ i, idf_weight (length docs) (doc_freq counts i)) <$> seq 0 (size vocab) in
    inr (mkFittedVectorizer vocab idf, tfidf_matrix idf counts).

(** Modelled from the spec: [Vectorizer.transform] (scikit-learn's
    [TfidfVectorizer.transform], not under src/).  Uses the previously fit
    Vocabulary and IDF weights; tokens not in the Vocabulary are ignored.
    The fitted state is returned as the call leaves it. *)
Definition vec_transform (f : FittedVectorizer) (docs : list string)
    : FittedVectorizer * Matrix :=
  let '(vocab, counts) := count_vocab true docs (vocabulary_ f) in
  (mkFittedVectorizer vocab (idf_ f), tfidf_matrix (idf_ f) counts).

Definition fit_transform (docs : list string) (o : Obj) : Result (Matrix * Obj) :=
  match o with
  | TfidfVectorizer _ =>
      match vec_fit docs with
      | inr (f, X) => inr (X, TfidfVectorizer (Some f))
      | inl e => inl e
      end
  | _ => inl (AttributeError "fit_transform")
  end.

Definition transform (docs : list string) (o : Obj) : Result (Matrix * Obj) :=
  match o with
  | TfidfVectorizer (Some f) =>
      let '(f', X) := vec_transform f docs in inr (X, TfidfVectorizer (Some f'))
  | TfidfVectorizer None => inl NotFittedError
  | _ => inl (AttributeError "transform")
  end.

(** ** Classifier (specification 4.2) *)

Definition dot (w x : list Q) : Q := foldr Qplus 0%Q (zip_with Qmult w x).

(** [predict_score]: the linear score passed through the logistic link. *)
Definition predict_score (c : FittedClassifier) (x : list Q) : Q :=
  expit (dot (coef_ c) x + intercept_ c)%Q.

(** The class whose score exceeds the 0.5 decision threshold. *)
Definition predict_row (c : FittedClassifier) (x : list Q) : Z :=
  if Qlt_le_dec (1 # 2) (predict_score c x) then 1%Z else 0%Z.

(** Modelled from the spec: [Classifier.fit] (scikit-learn's
    [LogisticRegression.fit], not under src/).  Requires as many labels as
    feature rows and at least one example of each label value; fails with
    [DegenerateDatasetError] otherwise. *)
Definition clf_fit (C : Q) (max_iter : nat) (X : Matrix) (y : list Z)
    : Result FittedClassifier :=
  if decide (length (m_rows X) = length y ∧ 1%Z ∈ y ∧ 0%Z ∈ y)
  then inr (lbfgs C max_iter X y)
  else inl DegenerateDatasetError.

Definition fit (X : Matrix) (y : list Z) (o : Obj) : Result (() * Obj) :=
  match o with
  | LogisticRegression C max_iter _ =>
      match clf_fit C max_iter X y with
      | inr c => inr ((), LogisticRegression C max_iter (Some c))
      | inl e => inl e
      end
  | _ => inl (AttributeError "fit")
  end.

(** Modelled from the spec: [Classifier.predict] (scikit-learn's
    [LogisticRegression.predict], not under src/).  A pure function of the
    fitted weights and the input; a matrix of another width than the weight
    vector is a dimension mismatch. *)
Definition predict (X : Matrix) (o : Obj) : Result (list Z * Obj) :=
  match o with
  | LogisticRegression _ _ (Some c) =>
      if decide (n_features X = length (coef_ c))
      then inr (predict_row c <$> m_rows X, o)
      else inl (ValueError "X has a different number of features than the model")
  | LogisticRegression _ _ None => inl NotFittedError
  | _ => inl (AttributeError "predict")
  end.

(** ** train_test_split *)

(** [random_state=seed] makes a generator of its own; [random_state=None]
    draws from the numpy global generator and advances it. *)
Definition draw_permutation (random_state : option Z) (n : nat) : M (list nat) :=
  match random_state with
  | Some seed => mret (permutation (RandomState seed) n)
  | None => λ p,
      (inr (permutation (np_random p) n),
       mkProcess (fs p) (rng_next (np_random p) n) (stdout p) (globals p))
  end.

(** The first [n_test = ceil(test_size * n)] entries of a permutation of the
    positions select the test rows, the remaining ones the train rows.  The
    product is taken over the rationals; at [n = 600] and [test_size = 0.2]
    the float product is 120.0 as well. *)
Definition n_test_of (test_size : Q) (n : nat) : nat :=
  Z.to_nat (Qceiling (test_size * inject_Z (Z.of_nat n))).

Definition test_rows (test_size : Q) (n : nat) (perm : list nat) : list nat :=
  take (n_test_of test_size n) perm.

Definition train_rows (test_size : Q) (n : nat) (perm : list nat) : list nat :=
  take (n - n_test_of test_size n) (drop (n_test_of test_size n) perm).

Definition train_test_split {A B} (X : Series A) (y : Series B)
    (test_size : Q) (random_state : option Z)
    : M (Series A * Series A * Series B * Series B) :=
  let n := length X in
  if decide (length y = n) then
    if decide (n - n_test_of test_size n = 0)
    then raise (ValueError "the resulting train set will be empty")
    else
      perm ← draw_permutation random_state n;
      let ind_test := test_rows test_size n perm in
      let ind_train := train_rows test_size n perm in
      X_train ← lift (iloc X ind_train);
      X_test ← lift (iloc X ind_test);
      y_train ← lift (iloc y ind_train);
      y_test ← lift (iloc y ind_test);
      mret (X_train, X_test, y_train, y_test)
  else raise (ValueError "Found input variables with inconsistent numbers of samples").

(** ** joblib (specification 4.4) *)

(** Modelled from the spec: [save(name, artifact)] ([joblib.dump], not
    under src/).  Stores the serialized artifact under the name. *)
Definition with_file (name : string) (b : Blob) (p : Process) : Process :=
  mkProcess (<[name := b]> (fs p)) (np_random p) (stdout p) (globals p).

Definition joblib_dump (o : PyVal) (name : string) : M () := λ p,
  (inr (), with_file name (pickle o) p).

(** Modelled from the spec: [load(name)] ([joblib.load], not under src/).
    Fails with [ArtifactNotFoundError] if the name is absent. *)
Definition joblib_load (name : string) : M PyVal := λ p,
  match fs p !! name with
  | None => (inl (ArtifactNotFoundError name), p)
  | Some b =>
      match unpickle b with
      | Some o => (inr o, p)
      | None => (inl (ValueError "could not unpickle"), p)
      end
  end.

(** ** kmkh_1.0.py *)

(** Lines 15-34: the frame is bound to [data]. *)
Definition build_dataset : M () :=
  d ← lift data;
  assign "data" (VFrame d).

(** Lines 39-51, with the frame and the [random_state] argument left open;
    the script passes [data] and 42. *)
Definition train_on_1_0 (d : DataFrame) (random_state : option Z) : M () :=
  '(X_train, X_test, y_train, y_test) ←
    train_test_split (series (col_text d)) (series (col_label d)) (1 # 5) random_state;
  assign "X_train" (VText X_train);;
  assign "X_test" (VText X_test);;
  assign "y_train" (VLabels y_train);;
  assign "y_test" (VLabels y_test);;
  assign "vectorizer" (VObj (TfidfVectorizer None));;
  X_train_tfidf ← call "vectorizer" "fit_transform" (fit_transform (values X_train));
  assign "X_train_tfidf" (VMatrix X_train_tfidf);;
  X_test_tfidf ← call "vectorizer" "transform" (transform (values X_test));
  assign "X_test_tfidf" (VMatrix X_test_tfidf);;
  assign "clf" (VObj (LogisticRegression 1 100 None));;
  call "clf" "fit" (fit X_train_tfidf (values y_train));;
  y_pred ← call "clf" "predict" (predict X_test_tfidf);
  assign "y_pred" (VArray y_pred);;
  print (classification_report (values y_test) y_pred).

Definition train_1_0 : M () :=
  v ← global "data";
  match v with
  | VFrame d => train_on_1_0 d (Some 42%Z)
  | _ => raise (AttributeError "__getitem__")
  end.

(** Lines 56-57. *)
Definition save_artifacts : M () :=
  clf ← global "clf";
  joblib_dump clf "spam_model.pkl";;
  vectorizer ← global "vectorizer";
  joblib_dump vectorizer "tfidf_vectorizer.pkl".

(** Lines 62-68: the app, the reload of both artifacts, and the
    registration of the handler under [/predict/]. *)
Definition app_post (path name : string) : M () :=
  v ← global "app";
  match v with
  | VApp routes => assign "app" (VApp (routes ++ [path]));; assign name (VFunction name)
  | _ => raise (AttributeError "post")
  end.

Definition serve_setup : M () :=
  assign "app" (VApp []);;
  clf ← joblib_load "spam_model.pkl";
  assign "clf" clf;;
  vectorizer ← joblib_load "tfidf_vectorizer.pkl";
  assign "vectorizer" vectorizer;;
  app_post "/predict/" "predict".

Definition script_1_0 : M () :=
  build_dataset;; train_1_0;; save_artifacts;; serve_setup.

(** Lines 68-71: the handler. *)
Definition predict_1_0 (email : string) : M (gmap string string) :=
  X ← call "vectorizer" "transform" (transform [email]);
  preds ← call "clf" "predict" (predict X);
  match preds with
  | prediction :: _ =>
      mret {[ "prediction" := if decide (prediction = 1%Z) then "spam" else "ham" ]}
  | [] => raise IndexError
  end.

(** ** kmkh_1.1.py *)

(** Lines 37-43: the same split; the test partition is left unused. *)
Definition train_on_1_1 (d : DataFrame) (random_state : option Z) : M () :=
  '(X_train, X_test, y_train, y_test) ←
    train_test_split (series (col_text d)) (series (col_label d)) (1 # 5) random_state;
  assign "X_train" (VText X_train);;
  assign "X_test" (VText X_test);;
  assign "y_train" (VLabels y_train);;
  assign "y_test" (VLabels y_test);;
  assign "vectorizer" (VObj (TfidfVectorizer None));;
  X_train_tfidf ← call "vectorizer" "fit_transform" (fit_transform (values X_train));
  assign "X_train_tfidf" (VMatrix X_train_tfidf);;
  assign "clf" (VObj (LogisticRegression 1 100 None));;
  call "clf" "fit" (fit X_train_tfidf (values y_train)).

Definition train_1_1 : M () :=
  v ← global "data";
  match v with
  | VFrame d => train_on_1_1 d (Some 42%Z)
  | _ => raise (AttributeError "__getitem__")
  end.

Definition script_1_1 : M () :=
  build_dataset;; train_1_1;; save_artifacts;; serve_setup.

(** Lines 57-68: the handler reads the raw body and decodes it, ignoring
    undecodable bytes. *)
Definition predict_1_1 (email_raw : string) : M (gmap string string) :=
  let email_text := decode_utf8_ignore email_raw in
  X ← call "vectorizer" "transform" (transform [email_text]);
  preds ← call "clf" "predict" (predict X);
  match preds with
  | prediction :: _ =>
      if decide (prediction = 1%Z)
      then mret {[ "header" := "X-Spam-ML-Score: yes" ]}
      else mret {[ "header" := "X-Spam-ML-Score: no" ]}
  | [] => raise IndexError
  end.

(** ** Vocabulary of the properties *)

(** A method that returns the object as it found it. *)
Definition readonly {A} (method : Obj → Result (A * Obj)) : Prop :=
  ∀ o a o', method o = inr (a, o') → o' = o.

(** A statement that leaves the process as it found it. *)
Definition stateless {A} (m : M A) : Prop := ∀ p, (m p).2 = p.

(** Two processes that agree on the module namespace and on what was
    printed; their files and numpy generators may differ. *)
Definition same_program_state (p q : Process) : Prop :=
  stdout p = stdout q ∧ globals p = globals q.

(** A statement whose outcome and effect on the program state do not
    depend on the files and the numpy generator. *)
Definition oblivious {A} (m : M A) : Prop :=
  ∀ p q, same_program_state p q →
    (m p).1 = (m q).1 ∧ same_program_state (m p).2 (m q).2.


(** The fitted state behind the names [vectorizer] and [clf], if any. *)
Definition fitted_vectorizer (p : Process) : option FittedVectorizer :=
  match globals p !! "vectorizer" with
  | Some (VObj (TfidfVectorizer (Some f))) => Some f
  | _ => None
  end.

Definition fitted_classifier (p : Process) : option FittedClassifier :=
  match globals p !! "clf" with
  | Some (VObj (LogisticRegression _ _ (Some c))) => Some c
  | _ => None
  end.

(** Both names are bound to fitted estimators of one width. *)
Definition ready (p : Process) (f : FittedVectorizer) (c : FittedClassifier) : Prop :=
  fitted_vectorizer p = Some f ∧ fitted_classifier p = Some c
  ∧ length (idf_ f) = length (coef_ c).

(** The feature row of one text under a fitted vectorizer. *)
Definition features (f : FittedVectorizer) (text : string) : list Q :=
  tfidf_row (idf_ f) (count_tokens true (analyze text) (vocabulary_ f) ∅).2.

(** Two runs of a training section [train], from [p0] and from [q0], end
    alike: outcome, output, namespace (so the split and both fitted
    estimators), and the dumped blobs if both go on to dump. *)
Definition runs_alike (train : M ()) (p0 q0 : Process) : Prop :=
  (train p0).1 = (train q0).1
  ∧ stdout (train p0).2 = stdout (train q0).2
  ∧ globals (train p0).2 = globals (train q0).2
  ∧ (∀ name, name ∈ ["X_train"; "X_test"; "y_train"; "y_test"] →
       globals (train p0).2 !! name = globals (train q0).2 !! name)
  ∧ fitted_vectorizer (train p0).2 = fitted_vectorizer (train q0).2
  ∧ fitted_classifier (train p0).2 = fitted_classifier (train q0).2
  ∧ ∀ p q, (train;; save_artifacts) p0 = (inr (), p) →
           (train;; save_artifacts) q0 = (inr (), q) →
           fs p !! "spam_model.pkl" = fs q !! "spam_model.pkl"
           ∧ fs p !! "tfidf_vectorizer.pkl" = fs q !! "tfidf_vectorizer.pkl".

(** The process after the training section: the names it binds, in the
    order of the assignments. *)
Definition after_split (X_train X_test : Series string) (y_train y_test : Series Z)
    (f : FittedVectorizer) (p0 : Process) : Process :=
  with_global "vectorizer" (VObj (TfidfVectorizer (Some f)))
    (with_global "vectorizer" (VObj (TfidfVectorizer None))
       (with_global "y_test" (VLabels y_test)
          (with_global "y_train" (VLabels y_train)
             (with_global "X_test" (VText X_test)
                (with_global "X_train" (VText X_train) p0))))).

Definition after_train_1_1 (X_train X_test : Series string) (y_train y_test : Series Z)
    (f : FittedVectorizer) (Xm : Matrix) (c : FittedClassifier) (p0 : Process) : Process :=
  with_global "clf" (VObj (LogisticRegression 1 100 (Some c)))
    (with_global "clf" (VObj (LogisticRegression 1 100 None))
       (with_global "X_train_tfidf" (VMatrix Xm)
          (after_split X_train X_test y_train y_test f p0))).

Definition after_train_1_0 (X_train X_test : Series string) (y_train y_test : Series Z)
    (f : FittedVectorizer) (Xm : Matrix) (c : FittedClassifier) (p0 : Process) : Process :=
  let Xt := (vec_transform f (values X_test)).2 in
  let y_pred := predict_row c <$> m_rows Xt in
  with_stdout (classification_report (values y_test) y_pred)
    (with_global "y_pred" (VArray y_pred)
       (with_global "clf" (VObj (LogisticRegression 1 100 (Some c)))
          (with_global "clf" (VObj (LogisticRegression 1 100 (Some c)))
             (with_global "clf" (VObj (LogisticRegression 1 100 None))
                (with_global "X_test_tfidf" (VMatrix Xt)
                   (with_global "vectorizer" (VObj (TfidfVectorizer (Some f)))
                      (with_global "X_train_tfidf" (VMatrix Xm)
                         (after_split X_train X_test y_train y_test f p0)))))))).

(** The process after the two dumps and after the serving set-up. *)
Definition after_save (vc vv : PyVal) (p : Process) : Process :=
  with_file "tfidf_vectorizer.pkl" (pickle vv) (with_file "spam_model.pkl" (pickle vc) p).

Definition after_serve_setup (vc vv : PyVal) (p : Process) : Process :=
  with_global "predict" (VFunction "predict")
    (with_global "app" (VApp ([] ++ ["/predict/"]))
       (with_global "vectorizer" vv
          (with_global "clf" vc
             (with_global "app" (VApp []) p)))).


End Model.

(** ** A small executable instance of the libraries

    Used to run the scripts on concrete inputs: an ASCII tokeniser (lower
    case, maximal alphanumeric runs of two or more characters), a rational
    IDF, a one-pass linear learner, a rational sigmoid, a rotation as the
    permutation and the identity as the serializer. *)
Module Toy.

Definition is_alnum (c : ascii) : bool :=
  let n := N_of_ascii c in
  ((48 <=? n) && (n <=? 57) || (65 <=? n) && (n <=? 90) || (97 <=? n) && (n <=? 122))%N.

Definition lower (c : ascii) : ascii :=
  let n := N_of_ascii c in
  if ((65 <=? n) && (n <=? 90))%N then ascii_of_N (n + 32) else c.

Definition flush (cur : string) (acc : list string) : list string :=
  if Nat.leb 2 (String.length cur) then String.rev cur :: acc else acc.

Fixpoint tokens_from (s : string) (cur : string) (acc : list string) : list string :=
  match s with
  | EmptyString => reverse (flush cur acc)
  | String c rest =>
      if is_alnum c then tokens_from rest (String (lower c) cur) acc
      else tokens_from rest EmptyString (flush cur acc)
  end.

Definition tokenize (s : string) : list string := tokens_from s EmptyString [].

Definition idf (n df : nat) : Q :=
  ((Z.of_nat (1 + n) # Pos.of_nat (1 + df)) + 1)%Q.

Definition sign (l : Z) : Q := if decide (l = 1%Z) then 1%Q else (- (1))%Q.

Definition learn (C : Q) (max_iter : nat) (X : Matrix) (y : list Z) : FittedClassifier :=
  mkFittedClassifier
    ((λ j, foldr (λ a b, Qred (a + b)) 0%Q
             (zip_with (λ row l, (sign l * nth j row 0)%Q) (m_rows X) y))
       <$> seq 0 (n_features X))
    0%Q.

Definition sigmoid (z : Q) : Q :=
  ((1 # 2) + z / (2 * (1 + Qabs z)))%Q.

Lemma rotate_perm (r : Z) (n : nat) : rotate (Z.to_nat (Z.abs r)) (seq 0 n) ≡ₚ seq 0 n.
Proof.
  unfold rotate. rewrite Permutation_app_comm. by rewrite take_drop.
Qed.

Lemma learn_dim C it X y : length (coef_ (learn C it X y)) = n_features X.
Proof. unfold learn; simpl. by rewrite length_fmap, length_seq. Qed.

#[export] Instance libs : Libs := {|
  RNG := Z;
  RandomState := id;
  permutation := λ r n, rotate (Z.to_nat (Z.abs r)) (seq 0 n);
  rng_next := λ r _, (r + 1)%Z;
  permutation_perm := rotate_perm;
  analyze := tokenize;
  idf_weight := idf;
  lbfgs := learn;
  lbfgs_dim := learn_dim;
  expit := sigmoid;
  classification_report := λ _ _, "report";
  Blob := PyVal;
  pickle := id;
  unpickle := Some;
  unpickle_pickle := λ _, eq_refl
|}.

(** The processes the scripts leave behind on a machine without files,
    and the process of 1.0 after its training section alone. *)
Definition served_1_0 : Process := (script_1_0 (boot ∅ 0%Z)).2.
Definition served_1_1 : Process := (script_1_1 (boot ∅ 0%Z)).2.
Definition trained_1_0 : Process := ((build_dataset;; train_1_0) (boot ∅ 0%Z)).2.

(** The fitted estimators of the served processes. *)
Definition vec_1_0 : FittedVectorizer :=
  default (mkFittedVectorizer ∅ []) (fitted_vectorizer served_1_0).
Definition clf_1_0 : FittedClassifier :=
  default (mkFittedClassifier [] 0) (fitted_classifier served_1_0).
Definition vec_1_1 : FittedVectorizer :=
  default (mkFittedVectorizer ∅ []) (fitted_vectorizer served_1_1).
Definition clf_1_1 : FittedClassifier :=
  default (mkFittedClassifier [] 0) (fitted_classifier served_1_1).

(** The row label of the first train row of a process. *)
Definition first_train_row (p : Process) : option nat :=
  match globals p !! "X_train" with
  | Some (VText s) => head (index s)
  | _ => None
  end.

(** The frame of the scripts, and the processes after the training
    section of each script on it, with the seed of the scripts. *)
Definition frame : DataFrame :=
  mkDataFrame (spam_texts ++ ham_texts) (replicate 300 1%Z ++ replicate 300 0%Z).

(** The process of 1.0 after the dump and the reload on its trained
    process, and the served processes on a machine that holds a stale
    model file and another generator state. *)
Definition reloaded_1_0 : Process := ((save_artifacts;; serve_setup) trained_1_0).2.
Definition served_1_0_elsewhere : Process :=
  (script_1_0 (boot {[ "spam_model.pkl" := VArray [] ]} 7%Z)).2.
Definition served_1_1_elsewhere : Process :=
  (script_1_1 (boot {[ "spam_model.pkl" := VArray [] ]} 7%Z)).2.

End Toy.

(** * Properties *)

Lemma length_list_mul {A} (l : list A) n :
  length (list_mul l n) = n * length l.
Proof.
  unfold list_mul. induction n as [|n IH]; simpl; [done|].
  rewrite length_app, IH. lia.
Qed.

Lemma list_mul_singleton {A} (x : A) n : list_mul [x] n = replicate n x.
Proof.
  unfold list_mul. induction n as [|n IH]; simpl; [done|]. by rewrite IH.
Qed.

(** ** The dataset *)

Lemma rows_fst d :
  length (col_text d) = length (col_label d) → (rows d).*1 = col_text d.
Proof. intros E. unfold rows. apply fst_zip. lia. Qed.

Lemma rows_snd d :
  length (col_text d) = length (col_label d) → (rows d).*2 = col_label d.
Proof. intros E. unfold rows. apply snd_zip. lia. Qed.

Lemma corpus_length : length (spam_texts ++ ham_texts) = 600.
Proof.
  rewrite length_app. unfold spam_texts, ham_texts.
  by rewrite !length_list_mul.
Qed.

Lemma labels_replicate :
  list_mul [1%Z] 300 ++ list_mul [0%Z] 300 = replicate 300 1%Z ++ replicate 300 0%Z.
Proof. by rewrite !list_mul_singleton. Qed.

Lemma data_frame :
  data = inr (mkDataFrame (spam_texts ++ ham_texts)
                          (replicate 300 1%Z ++ replicate 300 0%Z)).
Proof.
  unfold data, pd_DataFrame. rewrite labels_replicate.
  destruct (decide _) as [|Hne]; [done|].
  rewrite corpus_length, length_app, !length_replicate in Hne. done.
Qed.

(** C10: the frame built at startup has exactly 600 rows, the first 300
    labelled 1 and the last 300 labelled 0; it is not empty and holds both
    label values. *)
Theorem dataset_600_rows :
  ∃ d, data = inr d
    ∧ length (rows d) = 600
    ∧ (rows d).*1 = spam_texts ++ ham_texts
    ∧ take 300 (rows d).*2 = replicate 300 1%Z
    ∧ drop 300 (rows d).*2 = replicate 300 0%Z
    ∧ rows d ≠ []
    ∧ 1%Z ∈ (rows d).*2 ∧ 0%Z ∈ (rows d).*2.
Proof.
  eexists. split; [apply data_frame|].
  set (d := mkDataFrame _ _).
  assert (E : length (col_text d) = length (col_label d)).
  { unfold d. cbn [col_text col_label].
    by rewrite corpus_length, length_app, !length_replicate. }
  assert (Hlen : length (rows d) = 600).
  { rewrite <- (length_fmap fst), (rows_fst d E). apply corpus_length. }
  assert (Hne : rows d ≠ []).
  { intros E'. by rewrite E' in Hlen. }
  rewrite (rows_fst d E), (rows_snd d E).
  split_and!; try done; unfold d; cbn [col_text col_label].
  - apply elem_of_app. left. apply elem_of_replicate. done.
  - apply elem_of_app. right. apply elem_of_replicate. done.
Qed.

(** ** Vectorizer, classifier and artifact store *)

Section Components.
Context `{Libs}.

Lemma count_tokens_fixed ts vocab c :
  (count_tokens true ts vocab c).1 = vocab.
Proof.
  revert c. induction ts as [|t ts IH]; intros c; simpl; [done|].
  destruct (vocab !! t); apply IH.
Qed.

Lemma count_vocab_fixed docs vocab :
  (count_vocab true docs vocab).1 = vocab.
Proof.
  induction docs as [|d ds IH]; simpl; [done|].
  pose proof (count_tokens_fixed (analyze d) vocab ∅) as E.
  destruct (count_tokens true (analyze d) vocab ∅) as [v1 c]; simpl in E; subst v1.
  destruct (count_vocab true ds vocab) as [v2 cs]; simpl in *. done.
Qed.

(** With a fixed vocabulary, a document counts as the document with its
    unknown tokens removed. *)
Lemma count_tokens_fixed_filter ts vocab c :
  (count_tokens true ts vocab c).2
  = (count_tokens true (filter (λ t, is_Some (vocab !! t)) ts) vocab c).2.
Proof.
  revert c. induction ts as [|t ts IH]; intros c; [done|].
  destruct (vocab !! t) as [i|] eqn:E.
  - rewrite filter_cons_True by (by rewrite E). simpl. rewrite E. apply IH.
  - rewrite filter_cons_False by (rewrite E; by intros [??]). simpl. rewrite E. apply IH.
Qed.

Lemma count_vocab_fixed_rows docs vocab :
  (count_vocab true docs vocab).2
  = (λ d, (count_tokens true (analyze d) vocab ∅).2) <$> docs.
Proof.
  induction docs as [|d ds IH]; simpl; [done|].
  pose proof (count_tokens_fixed (analyze d) vocab ∅) as E.
  destruct (count_tokens true (analyze d) vocab ∅) as [v1 c]; simpl in E; subst v1.
  destruct (count_vocab true ds vocab) as [v2 cs]; simpl in *. by rewrite IH.
Qed.

(** Every index that a fixed-vocabulary count touches is the index of a
    vocabulary token of the document. *)
Lemma count_tokens_fixed_known ts vocab c i :
  is_Some ((count_tokens true ts vocab c).2 !! i) →
  is_Some (c !! i) ∨ ∃ t, t ∈ ts ∧ vocab !! t = Some i.
Proof.
  revert c. induction ts as [|t ts IH]; intros c Hi; simpl in Hi; [by left|].
  destruct (vocab !! t) as [j|] eqn:E.
  - destruct (IH _ Hi) as [Hc|(t' & ? & ?)].
    + unfold bump in Hc. destruct (decide (j = i)) as [->|Hne].
      * right. exists t. split; [left|done].
      * rewrite lookup_insert_ne in Hc by done. by left.
    + right. exists t'. split; [by right|done].
  - destruct (IH _ Hi) as [Hc|(t' & ? & ?)]; [by left|].
    right. exists t'. split; [by right|done].
Qed.

Lemma vec_transform_state f docs : (vec_transform f docs).1 = f.
Proof.
  unfold vec_transform.
  pose proof (count_vocab_fixed docs (vocabulary_ f)) as E.
  destruct (count_vocab true docs (vocabulary_ f)) as [v cs]; simpl in *; subst v.
  by destruct f.
Qed.

Lemma vec_transform_matrix f docs :
  (vec_transform f docs).2
  = tfidf_matrix (idf_ f)
      ((λ d, (count_tokens true (analyze d) (vocabulary_ f) ∅).2) <$> docs).
Proof.
  unfold vec_transform.
  pose proof (count_vocab_fixed_rows docs (vocabulary_ f)) as E.
  destruct (count_vocab true docs (vocabulary_ f)) as [v cs]; simpl in *. by rewrite E.
Qed.

Lemma transform_fitted f docs :
  transform docs (TfidfVectorizer (Some f))
  = inr ((vec_transform f docs).2, TfidfVectorizer (Some f)).
Proof.
  unfold transform. pose proof (vec_transform_state f docs) as E.
  destruct (vec_transform f docs) as [f' X]; simpl in *. by subst.
Qed.

Lemma transform_readonly docs : readonly (transform docs).
Proof.
  intros o X o' E. destruct o as [[f|]|]; [|done..].
  rewrite transform_fitted in E. by simplify_eq.
Qed.

Lemma predict_readonly X : readonly (predict X).
Proof.
  intros o a o' E. destruct o as [|C it [c|]]; simpl in E; try done.
  destruct (decide _); by simplify_eq.
Qed.

(** C6: on a fitted vectorizer, transform of any documents returns (it does
    not raise), the fitted vocabulary and IDF weights are as before the
    call, and each row is the row of the document with its
    out-of-vocabulary tokens removed; no count lands outside the indices
    of the vocabulary tokens of the document. *)
Theorem transform_drops_unknown_tokens (f : FittedVectorizer) (docs : list string) :
  ∃ X, transform docs (TfidfVectorizer (Some f)) = inr (X, TfidfVectorizer (Some f))
    ∧ (vec_transform f docs).1 = f
    ∧ n_features X = length (idf_ f)
    ∧ m_rows X
      = (λ d, tfidf_row (idf_ f)
                (count_tokens true
                   (filter (λ t, is_Some (vocabulary_ f !! t)) (analyze d))
                   (vocabulary_ f) ∅).2) <$> docs
    ∧ ∀ d i, is_Some ((count_tokens true (analyze d) (vocabulary_ f) ∅).2 !! i) →
        ∃ t, t ∈ analyze d ∧ vocabulary_ f !! t = Some i.
Proof.
  exists (vec_transform f docs).2. split_and!.
  - apply transform_fitted.
  - apply vec_transform_state.
  - by rewrite vec_transform_matrix.
  - rewrite vec_transform_matrix. unfold tfidf_matrix; cbn [m_rows].
    rewrite <- list_fmap_compose. apply list_fmap_ext. intros _ d _. simpl.
    by rewrite <- count_tokens_fixed_filter.
  - intros d i Hi. apply count_tokens_fixed_known in Hi as [Hi|Hi]; [|done].
    rewrite lookup_empty in Hi. by destruct Hi.
Qed.

Lemma count_vocab_no_tokens fixed docs vocab :
  (∀ d, d ∈ docs → analyze d = []) → (count_vocab fixed docs vocab).1 = vocab.
Proof.
  induction docs as [|d ds IH]; intros Hd; simpl; [done|].
  rewrite (Hd d) by left. simpl.
  specialize (IH (λ d' Hd', Hd d' (list_elem_of_further _ _ _ Hd'))).
  destruct (count_vocab fixed ds vocab) as [v2 cs]; simpl in *. done.
Qed.

Lemma vec_fit_no_tokens docs :
  (∀ d, d ∈ docs → analyze d = []) → vec_fit docs = inl EmptyCorpusError.
Proof.
  intros Hd. unfold vec_fit.
  pose proof (count_vocab_no_tokens false docs ∅ Hd) as E.
  destruct (count_vocab false docs ∅) as [v cs]; simpl in E; subst v.
  by rewrite decide_True.
Qed.

Lemma clf_fit_one_label C it X y v :
  (∀ l, l ∈ y → l = v) → clf_fit C it X y = inl DegenerateDatasetError.
Proof.
  intros Hy. unfold clf_fit. destruct (decide _) as [(_ & H1 & H0)|]; [|done].
  apply Hy in H1, H0. congruence.
Qed.

(** C7: fitting the classifier on labels that all have one value fails
    with [DegenerateDatasetError]; fitting the vectorizer on no documents,
    or on documents that yield no token, fails with [EmptyCorpusError]. *)
Theorem fit_rejects_degenerate_input
    (C : Q) (it : nat) (st : option FittedClassifier) (X : Matrix) (y : list Z) (v : Z)
    (st' : option FittedVectorizer) (docs : list string) :
  (∀ l, l ∈ y → l = v) →
  (∀ d, d ∈ docs → analyze d = []) →
  fit X y (LogisticRegression C it st) = inl DegenerateDatasetError
  ∧ fit_transform docs (TfidfVectorizer st') = inl EmptyCorpusError
  ∧ fit_transform [] (TfidfVectorizer st') = inl EmptyCorpusError.
Proof.
  intros Hy Hd. unfold fit, fit_transform.
  rewrite (clf_fit_one_label C it X y v Hy), (vec_fit_no_tokens docs Hd).
  rewrite (vec_fit_no_tokens []); [done|]. intros d Hin. by apply elem_of_nil in Hin.
Qed.

Lemma joblib_load_dump v name p :
  joblib_load name (joblib_dump v name p).2 = (inr v, (joblib_dump v name p).2).
Proof.
  unfold joblib_load, joblib_dump, with_file; cbn [snd fs].
  by rewrite lookup_insert_eq, unpickle_pickle.
Qed.

Lemma joblib_load_dump_ne v name name' p :
  name' ≠ name →
  (joblib_load name' (joblib_dump v name p).2).1 = (joblib_load name' p).1.
Proof.
  intros Hne. unfold joblib_load, joblib_dump, with_file; cbn [snd fs].
  rewrite lookup_insert_ne by done.
  destruct (fs p !! name') as [b|]; [|done]. by destruct (unpickle b).
Qed.

(** C4: for every name and every estimator object (a vectorizer or a
    classifier, fitted or not), loading the name after saving the object
    under it returns that object; saving under one name leaves what the
    other names load as it was. *)
Theorem joblib_round_trip (o : Obj) (name : string) (p : Process) :
  (joblib_dump (VObj o) name;; joblib_load name) p
    = (inr (VObj o), (joblib_dump (VObj o) name p).2)
  ∧ ∀ name', name' ≠ name →
      (joblib_load name' (joblib_dump (VObj o) name p).2).1 = (joblib_load name' p).1.
Proof.
  split.
  - change ((joblib_dump (VObj o) name;; joblib_load name) p)
      with (joblib_load name (joblib_dump (VObj o) name p).2).
    apply joblib_load_dump.
  - intros name' Hne. by apply joblib_load_dump_ne.
Qed.

End Components.

(** ** The handlers *)

Section Handlers.
Context `{Libs}.

Lemma stateless_bind {A B} (m : M A) (f : A → M B) :
  stateless m → (∀ a, stateless (f a)) → stateless (m ≫= f).
Proof.
  intros Hm Hf p. unfold mbind, M_bind. specialize (Hm p).
  destruct (m p) as [[e|a] p']; simpl in *; subst; [done|]. apply Hf.
Qed.

Lemma stateless_mret {A} (a : A) : stateless (mret a : M A).
Proof. done. Qed.

Lemma stateless_raise {A} e : stateless (raise e : M A).
Proof. done. Qed.

Lemma assign_bound name v p :
  globals p !! name = Some v → assign name v p = (inr (), p).
Proof.
  intros E. unfold assign, with_global. rewrite insert_id by done. by destruct p.
Qed.

Lemma stateless_call {A} name attr (method : Obj → Result (A * Obj)) :
  readonly method → stateless (call name attr method).
Proof.
  intros Hm p. unfold call, mbind, M_bind, global.
  destruct (globals p !! name) as [v|] eqn:E; [|done].
  destruct v; try done.
  destruct (method o) as [e|[a o']] eqn:Em; [done|].
  apply Hm in Em as ->. by rewrite assign_bound.
Qed.

Lemma call_bound {A} name attr (method : Obj → Result (A * Obj)) o a p :
  globals p !! name = Some (VObj o) → method o = inr (a, o) →
  call name attr method p = (inr a, p).
Proof.
  intros E Em. unfold call, mbind, M_bind, global. rewrite E, Em.
  by rewrite assign_bound.
Qed.

Lemma stateless_predict_1_0 email : stateless (predict_1_0 email).
Proof.
  unfold predict_1_0.
  apply stateless_bind; [apply stateless_call, transform_readonly|intros X].
  apply stateless_bind; [apply stateless_call, predict_readonly|intros preds].
  destruct preds; [apply stateless_raise|apply stateless_mret].
Qed.

Lemma stateless_predict_1_1 body : stateless (predict_1_1 body).
Proof.
  unfold predict_1_1.
  apply stateless_bind; [apply stateless_call, transform_readonly|intros X].
  apply stateless_bind; [apply stateless_call, predict_readonly|intros preds].
  destruct preds; [apply stateless_raise|].
  destruct (decide _); apply stateless_mret.
Qed.

(** What a method call can raise. *)
Lemma call_raises {A} name attr (method : Obj → Result (A * Obj)) p e :
  (call name attr method p).1 = inl e →
  e = NameError name ∨ e = AttributeError attr ∨ ∃ o, method o = inl e.
Proof.
  unfold call, mbind, M_bind, global.
  destruct (globals p !! name) as [v|]; [|simpl; intros; simplify_eq; by left].
  destruct v; simpl; try (intros; simplify_eq; right; by left).
  destruct (method o) as [e'|[a o']] eqn:Em; simpl; intros; simplify_eq.
  right; right. by exists o.
Qed.

Lemma transform_raises docs o e :
  transform docs o = inl e → classified e = false.
Proof.
  destruct o as [[f|]|]; [rewrite transform_fitted|simpl..]; intros; by simplify_eq.
Qed.

Lemma predict_raises X o e :
  predict X o = inl e → classified e = false.
Proof.
  destruct o as [|C it [c|]]; simpl; [|destruct (decide _)|]; intros; by simplify_eq.
Qed.

Lemma call_unclassified {A} name attr (method : Obj → Result (A * Obj)) p e :
  (∀ o e', method o = inl e' → classified e' = false) →
  (call name attr method p).1 = inl e → classified e = false.
Proof.
  intros Hm Hc. apply call_raises in Hc as [->|[->|[o Ho]]]; [done..|by eapply Hm].
Qed.

Lemma bind_raises {A B} (m : M A) (f : A → M B) p e :
  ((m ≫= f) p).1 = inl e →
  (m p).1 = inl e ∨ ∃ a, (m p).1 = inr a ∧ (f a (m p).2).1 = inl e.
Proof.
  unfold mbind, M_bind. destruct (m p) as [[e'|a] p']; simpl; [intros; simplify_eq; by left|].
  intros; right. by exists a.
Qed.

Lemma predict_1_0_unclassified email p e :
  (predict_1_0 email p).1 = inl e → classified e = false.
Proof.
  unfold predict_1_0. intros Hp.
  apply bind_raises in Hp as [Hp|(X & _ & Hp)].
  { eapply call_unclassified, Hp. apply transform_raises. }
  apply bind_raises in Hp as [Hp|(preds & _ & Hp)].
  { eapply call_unclassified, Hp. apply predict_raises. }
  destruct preds; simpl in Hp; by simplify_eq.
Qed.

Lemma predict_1_1_unclassified body p e :
  (predict_1_1 body p).1 = inl e → classified e = false.
Proof.
  unfold predict_1_1. intros Hp.
  apply bind_raises in Hp as [Hp|(X & _ & Hp)].
  { eapply call_unclassified, Hp. apply transform_raises. }
  apply bind_raises in Hp as [Hp|(preds & _ & Hp)].
  { eapply call_unclassified, Hp. apply predict_raises. }
  destruct preds; [|destruct (decide _)]; simpl in Hp; by simplify_eq.
Qed.

Lemma fitted_vectorizer_Some p f :
  fitted_vectorizer p = Some f →
  globals p !! "vectorizer" = Some (VObj (TfidfVectorizer (Some f))).
Proof.
  unfold fitted_vectorizer. intros E.
  destruct (globals p !! "vectorizer") as [[| | | | |[[f'|]|]| |]|]; by simplify_eq.
Qed.

Lemma fitted_classifier_Some p c :
  fitted_classifier p = Some c →
  ∃ C it, globals p !! "clf" = Some (VObj (LogisticRegression C it (Some c))).
Proof.
  unfold fitted_classifier. intros E.
  destruct (globals p !! "clf") as [[| | | | |[|C it [c'|]]| |]|]; simplify_eq. eauto.
Qed.

(** On a ready process the two method calls of a handler return the
    predicted class of the text and leave the process as it was. *)
Lemma classify_ready p f c text :
  ready p f c →
  (X ← call "vectorizer" "transform" (transform [text]);
   call "clf" "predict" (predict X)) p
  = (inr [predict_row c (features f text)], p).
Proof.
  intros (Hf & Hc & Hdim).
  apply fitted_vectorizer_Some in Hf. apply fitted_classifier_Some in Hc as (C & it & Hc).
  unfold mbind at 1, M_bind at 1.
  rewrite (call_bound _ _ _ _ _ _ Hf (transform_fitted f [text])).
  eapply call_bound; [done|]. unfold predict.
  rewrite vec_transform_matrix. cbn [tfidf_matrix n_features m_rows fmap list_fmap].
  rewrite decide_True by done. done.
Qed.

Lemma predict_1_0_ready p f c email :
  ready p f c →
  predict_1_0 email p
  = (inr {[ "prediction" := if Qlt_le_dec (1 # 2) (predict_score c (features f email))
                            then "spam" else "ham" ]}, p).
Proof.
  intros Hr. pose proof (classify_ready p f c email Hr) as E.
  unfold predict_1_0. unfold mbind, M_bind in *.
  destruct (call "vectorizer" "transform" (transform [email]) p) as [[e|X] p1]; [done|].
  rewrite E. unfold mret, M_ret, predict_row.
  destruct (Qlt_le_dec _ _); by rewrite ?decide_True, ?decide_False by done.
Qed.

Lemma predict_1_1_ready p f c body :
  ready p f c →
  predict_1_1 body p
  = (inr {[ "header" :=
              if Qlt_le_dec (1 # 2) (predict_score c (features f (decode_utf8_ignore body)))
              then "X-Spam-ML-Score: yes" else "X-Spam-ML-Score: no" ]}, p).
Proof.
  intros Hr. pose proof (classify_ready p f c (decode_utf8_ignore body) Hr) as E.
  unfold predict_1_1. unfold mbind, M_bind in *.
  destruct (call "vectorizer" "transform" (transform [decode_utf8_ignore body]) p)
    as [[e|X] p1]; [done|].
  rewrite E. unfold mret, M_ret, predict_row.
  destruct (Qlt_le_dec _ _); by rewrite ?decide_True, ?decide_False by done.
Qed.

Lemma no_label_in_header v :
  v ≠ "spam" → v ≠ "ham" → ¬ has_label {[ "header" := v ]}.
Proof.
  intros Hs Hh [k Hk].
  destruct (decide (k = "header")) as [->|Hne].
  - rewrite lookup_singleton_eq in Hk. destruct Hk; by simplify_eq.
  - rewrite lookup_singleton_ne in Hk by done. by destruct Hk.
Qed.

(** C1, as the code has it: on a ready process, the handler of 1.0 answers
    with the single field ["prediction"], exactly ["spam"] when the score of
    the text exceeds 0.5 and exactly ["ham"] otherwise; the handler of 1.1
    answers with the single field ["header"], ["X-Spam-ML-Score: yes"] when
    the score of the decoded body exceeds 0.5 and ["X-Spam-ML-Score: no"]
    otherwise, which carries no ["spam"]/["ham"] label. *)
Theorem predict_response_by_threshold
    (p : Process) (f : FittedVectorizer) (c : FittedClassifier) (text body : string) :
  ready p f c →
  (predict_1_0 text p).1
    = inr {[ "prediction" := if Qlt_le_dec (1 # 2) (predict_score c (features f text))
                             then "spam" else "ham" ]}
  ∧ (∃ resp, (predict_1_0 text p).1 = inr resp ∧ has_label resp)
  ∧ (predict_1_1 body p).1
    = inr {[ "header" :=
               if Qlt_le_dec (1 # 2) (predict_score c (features f (decode_utf8_ignore body)))
               then "X-Spam-ML-Score: yes" else "X-Spam-ML-Score: no" ]}
  ∧ (∃ resp, (predict_1_1 body p).1 = inr resp ∧ ¬ has_label resp).
Proof.
  intros Hr.
  rewrite (predict_1_0_ready p f c text Hr), (predict_1_1_ready p f c body Hr).
  cbn [fst]. split_and!; [done| |done|].
  - eexists; split; [done|]. exists "prediction". rewrite lookup_singleton_eq.
    destruct (Qlt_le_dec _ _); eauto.
  - eexists; split; [done|].
    destruct (Qlt_le_dec _ _); by apply no_label_in_header.
Qed.

(** C9, as the code has it: on a ready process the handler of 1.1 answers
    every byte string, classifying the text that is left after the
    undecodable bytes are dropped, and the handler of 1.0 answers every
    text; in no process does a handler raise a classified error (so never
    [InvalidInputError]); and every call, failed or not, leaves the process
    as it was. *)
Theorem predict_accepts_every_body
    (p : Process) (f : FittedVectorizer) (c : FittedClassifier) (body email : string) :
  ready p f c →
  predict_1_1 body p
    = (inr {[ "header" :=
                if Qlt_le_dec (1 # 2) (predict_score c (features f (decode_utf8_ignore body)))
                then "X-Spam-ML-Score: yes" else "X-Spam-ML-Score: no" ]}, p)
  ∧ (∃ resp, predict_1_0 email p = (inr resp, p))
  ∧ (∀ q e, (predict_1_1 body q).1 = inl e → classified e = false)
  ∧ (∀ q e, (predict_1_0 email q).1 = inl e → classified e = false)
  ∧ (∀ q, (predict_1_1 body q).2 = q ∧ (predict_1_0 email q).2 = q).
Proof.
  intros Hr. split_and!.
  - by apply predict_1_1_ready.
  - eexists. by apply predict_1_0_ready.
  - intros q e. apply predict_1_1_unclassified.
  - intros q e. apply predict_1_0_unclassified.
  - intros q. split; [apply stateless_predict_1_1|apply stateless_predict_1_0].
Qed.

End Handlers.

(** ** The training section and the scripts as a whole *)

Section Training.
Context `{Libs}.

Lemma bind_inv {A B} (m : M A) (f : A → M B) p b p'' :
  (m ≫= f) p = (inr b, p'') → ∃ a p', m p = (inr a, p') ∧ f a p' = (inr b, p'').
Proof.
  unfold mbind, M_bind. destruct (m p) as [[e|a] p']; [done|]. eauto.
Qed.

Lemma call_inv {A} name attr (method : Obj → Result (A * Obj)) p a p' :
  call name attr method p = (inr a, p') →
  ∃ o o', globals p !! name = Some (VObj o) ∧ method o = inr (a, o')
          ∧ p' = with_global name (VObj o') p.
Proof.
  unfold call, mbind, M_bind, global.
  destruct (globals p !! name) as [v|]; [|done].
  destruct v; try done.
  destruct (method o) as [e|[a' o']] eqn:Em; [done|].
  unfold assign, mret, M_ret. intros; simplify_eq. eauto.
Qed.

Lemma lift_inv {A} (r : Result A) p a p' :
  lift r p = (inr a, p') → r = inr a ∧ p' = p.
Proof. unfold lift. intros; by simplify_eq. Qed.

Lemma draw_permutation_seeded seed n p :
  draw_permutation (Some seed) n p = (inr (permutation (RandomState seed) n), p).
Proof. done. Qed.

Lemma train_test_split_inv {A B} (X : Series A) (y : Series B) ts seed p r p' :
  train_test_split X y ts (Some seed) p = (inr r, p') →
  let perm := permutation (RandomState seed) (length X) in
  p' = p ∧ length y = length X
  ∧ iloc X (train_rows ts (length X) perm) = inr r.1.1.1
  ∧ iloc X (test_rows ts (length X) perm) = inr r.1.1.2
  ∧ iloc y (train_rows ts (length X) perm) = inr r.1.2
  ∧ iloc y (test_rows ts (length X) perm) = inr r.2.
Proof.
  unfold train_test_split. intros Hs.
  destruct (decide (length y = length X)); [|done].
  destruct (decide (_ = 0)); [done|].
  apply bind_inv in Hs as (perm & ? & Hp & Hs).
  rewrite draw_permutation_seeded in Hp. simplify_eq.
  apply bind_inv in Hs as (Xtr & ? & (E1 & ->)%lift_inv & Hs).
  apply bind_inv in Hs as (Xte & ? & (E2 & ->)%lift_inv & Hs).
  apply bind_inv in Hs as (ytr & ? & (E3 & ->)%lift_inv & Hs).
  apply bind_inv in Hs as (yte & ? & (E4 & ->)%lift_inv & Hs).
  unfold mret, M_ret in Hs. simplify_eq. done.
Qed.

Lemma assign_inv name v p u p' :
  assign name v p = (inr u, p') → p' = with_global name v p.
Proof. unfold assign. intros; by simplify_eq. Qed.

Lemma fit_transform_inv docs o X o' :
  fit_transform docs o = inr (X, o') →
  ∃ st f, o = TfidfVectorizer st ∧ vec_fit docs = inr (f, X) ∧ o' = TfidfVectorizer (Some f).
Proof.
  destruct o as [st|]; simpl; [|done].
  destruct (vec_fit docs) as [e|[f X']] eqn:E; intros; simplify_eq. eauto.
Qed.

Lemma fit_inv X y o u o' :
  fit X y o = inr (u, o') →
  ∃ C it st c, o = LogisticRegression C it st ∧ clf_fit C it X y = inr c
               ∧ o' = LogisticRegression C it (Some c).
Proof.
  destruct o as [|C it st]; simpl; [done|].
  destruct (clf_fit C it X y) as [e|c] eqn:E; intros; simplify_eq. by eexists _, _, _, _.
Qed.

Ltac assigns H :=
  repeat (apply bind_inv in H as (? & ? & ->%assign_inv & H)).

Ltac called H o o' Hm :=
  let Ho := fresh "Ho" in
  apply call_inv in H as (o & o' & Ho & Hm & ->);
  cbn [globals with_global after_split] in Ho;
  repeat (rewrite lookup_insert_eq in Ho || rewrite lookup_insert_ne in Ho by done);
  simplify_eq.

Lemma train_on_1_1_inv d seed p0 p1 :
  train_on_1_1 d (Some seed) p0 = (inr (), p1) →
  ∃ X_train X_test y_train y_test f Xm c,
    train_test_split (series (col_text d)) (series (col_label d)) (1 # 5) (Some seed) p0
      = (inr (X_train, X_test, y_train, y_test), p0)
    ∧ vec_fit (values X_train) = inr (f, Xm)
    ∧ clf_fit 1 100 Xm (values y_train) = inr c
    ∧ p1 = after_train_1_1 X_train X_test y_train y_test f Xm c p0.
Proof.
  unfold train_on_1_1. intros Hr.
  apply bind_inv in Hr as ([[[X_train X_test] y_train] y_test] & p & Hs & Hr).
  pose proof (train_test_split_inv _ _ _ _ _ _ _ Hs) as (-> & _).
  assigns Hr.
  apply bind_inv in Hr as (Xm & ? & Hc & Hr). called Hc o o' Hm.
  apply fit_transform_inv in Hm as (st & f & ? & Hfit & ->).
  assigns Hr. called Hr o o' Hm.
  apply fit_inv in Hm as (C & it & st' & c & ? & Hcf & ->). simplify_eq.
  by eexists _, _, _, _, _, _, _.
Qed.

Lemma predict_inv X o preds o' :
  predict X o = inr (preds, o') →
  ∃ C it c, o = LogisticRegression C it (Some c) ∧ o' = o
            ∧ n_features X = length (coef_ c) ∧ preds = predict_row c <$> m_rows X.
Proof.
  destruct o as [|C it [c|]]; simpl; [done| |done].
  destruct (decide _); intros; simplify_eq. by eexists _, _, _.
Qed.

Lemma transform_inv docs o X o' :
  transform docs o = inr (X, o') →
  ∃ f, o = TfidfVectorizer (Some f) ∧ o' = o ∧ X = (vec_transform f docs).2.
Proof.
  destruct o as [[f|]|]; [|done..]. rewrite transform_fitted.
  intros; simplify_eq. eauto.
Qed.

Lemma print_inv line p u p' :
  print line p = (inr u, p') → p' = with_stdout line p.
Proof. unfold print. intros; by simplify_eq. Qed.

Lemma train_on_1_0_inv d seed p0 p1 :
  train_on_1_0 d (Some seed) p0 = (inr (), p1) →
  ∃ X_train X_test y_train y_test f Xm c,
    train_test_split (series (col_text d)) (series (col_label d)) (1 # 5) (Some seed) p0
      = (inr (X_train, X_test, y_train, y_test), p0)
    ∧ vec_fit (values X_train) = inr (f, Xm)
    ∧ clf_fit 1 100 Xm (values y_train) = inr c
    ∧ p1 = after_train_1_0 X_train X_test y_train y_test f Xm c p0.
Proof.
  unfold train_on_1_0. intros Hr.
  apply bind_inv in Hr as ([[[X_train X_test] y_train] y_test] & p & Hs & Hr).
  pose proof (train_test_split_inv _ _ _ _ _ _ _ Hs) as (-> & _).
  assigns Hr.
  apply bind_inv in Hr as (Xm & ? & Hc & Hr). called Hc o o' Hm.
  apply fit_transform_inv in Hm as (st & f & ? & Hfit & ->).
  assigns Hr.
  apply bind_inv in Hr as (Xt & ? & Hc & Hr). called Hc o o' Hm.
  apply transform_inv in Hm as (f' & ? & -> & ->). simplify_eq.
  assigns Hr.
  apply bind_inv in Hr as (? & ? & Hc & Hr). called Hc o o' Hm.
  apply fit_inv in Hm as (C & it & st' & c & ? & Hcf & ->). simplify_eq.
  apply bind_inv in Hr as (y_pred & ? & Hc & Hr). called Hc o o' Hm.
  apply predict_inv in Hm as (C & it & c' & ? & -> & Hdim & ->). simplify_eq.
  assigns Hr. apply print_inv in Hr as ->.
  by eexists _, _, _, _, _, _, _.
Qed.

(** *** Series and the split *)

Lemma series_lookup {A} (l : list A) i :
  series l !! i = (λ x, (i, x)) <$> l !! i.
Proof. unfold series. apply list_lookup_imap. Qed.

Lemma length_series {A} (l : list A) : length (series l) = length l.
Proof. apply length_imap. Qed.

Lemma iloc_inv {A} (s : Series A) idx r :
  iloc s idx = inr r → Forall2 (λ i x, s !! i = Some x) idx r.
Proof.
  unfold iloc. destruct (mapM _ idx) as [r'|] eqn:E; intros; simplify_eq.
  by apply mapM_Some_1.
Qed.

Lemma iloc_series_rows {A} (l : list A) idx r :
  iloc (series l) idx = inr r →
  Forall2 (λ i row, row.1 = i ∧ l !! i = Some row.2) idx r.
Proof.
  intros Hr%iloc_inv. eapply Forall2_impl; [done|].
  intros i [j x]. rewrite series_lookup. simpl.
  destruct (l !! i); simpl; intros; by simplify_eq.
Qed.

Lemma iloc_series_index {A} (l : list A) idx r :
  iloc (series l) idx = inr r → index r = idx.
Proof.
  intros Hr%iloc_series_rows. unfold index.
  induction Hr as [|i row idx' r' [E _] _ IH]; csimpl; [done|]. by rewrite E, IH.
Qed.

Lemma iloc_series_values {A} (l : list A) idx r :
  iloc (series l) idx = inr r → Forall2 (λ i x, l !! i = Some x) idx (values r).
Proof.
  intros Hr%iloc_series_rows. unfold values.
  induction Hr as [|i row idx' r' [_ E] _ IH]; csimpl; by constructor.
Qed.


Lemma permutation_NoDup r n : NoDup (permutation r n).
Proof. rewrite permutation_perm. apply NoDup_seq. Qed.


Lemma iloc_series_elem {A} (l : list A) idx r row :
  iloc (series l) idx = inr r → row ∈ r → l !! row.1 = Some row.2.
Proof.
  intros Hr%iloc_series_rows Hin.
  induction Hr as [|i row' idx' r' [E1 E2] _ IH]; [by apply elem_of_nil in Hin|].
  apply elem_of_cons in Hin as [->|Hin]; [by rewrite E1|by apply IH].
Qed.

Ltac lookups :=
  unfold fitted_vectorizer, fitted_classifier, after_serve_setup, after_save,
    after_train_1_0, after_train_1_1, after_split, with_stdout, with_file;
  cbn [globals with_global];
  repeat (rewrite lookup_insert_eq || rewrite lookup_insert_ne by done).




Lemma global_inv name p v p' :
  global name p = (inr v, p') → globals p !! name = Some v ∧ p' = p.
Proof.
  unfold global. destruct (globals p !! name); intros; by simplify_eq.
Qed.

Lemma joblib_dump_inv v name p u p' :
  joblib_dump v name p = (inr u, p') → p' = with_file name (pickle v) p.
Proof. unfold joblib_dump. intros; by simplify_eq. Qed.

Lemma joblib_load_inv name p v p' :
  joblib_load name p = (inr v, p') →
  p' = p ∧ ∃ b, fs p !! name = Some b ∧ unpickle b = Some v.
Proof.
  unfold joblib_load. destruct (fs p !! name) as [b|]; [|done].
  destruct (unpickle b) eqn:E; intros; simplify_eq. eauto.
Qed.

Lemma save_artifacts_inv p1 p2 :
  save_artifacts p1 = (inr (), p2) →
  ∃ vc vv, globals p1 !! "clf" = Some vc ∧ globals p1 !! "vectorizer" = Some vv
           ∧ p2 = after_save vc vv p1.
Proof.
  unfold save_artifacts. intros Hr.
  apply bind_inv in Hr as (vc & ? & (Hc & ->)%global_inv & Hr).
  apply bind_inv in Hr as (? & ? & ->%joblib_dump_inv & Hr).
  apply bind_inv in Hr as (vv & ? & (Hv & ->)%global_inv & Hr).
  apply joblib_dump_inv in Hr as ->. eauto.
Qed.

Lemma serve_setup_inv p2 p3 :
  serve_setup p2 = (inr (), p3) →
  ∃ vc vv bc bv,
    fs p2 !! "spam_model.pkl" = Some bc ∧ unpickle bc = Some vc
    ∧ fs p2 !! "tfidf_vectorizer.pkl" = Some bv ∧ unpickle bv = Some vv
    ∧ p3 = after_serve_setup vc vv p2.
Proof.
  unfold serve_setup, app_post. intros Hr.
  apply bind_inv in Hr as (? & ? & ->%assign_inv & Hr).
  apply bind_inv in Hr as (vc & ? & (-> & bc & Hbc & Huc)%joblib_load_inv & Hr).
  apply bind_inv in Hr as (? & ? & ->%assign_inv & Hr).
  apply bind_inv in Hr as (vv & ? & (-> & bv & Hbv & Huv)%joblib_load_inv & Hr).
  apply bind_inv in Hr as (? & ? & ->%assign_inv & Hr).
  apply bind_inv in Hr as (va & ? & (Ha & ->)%global_inv & Hr).
  cbn [globals with_global] in Ha.
  repeat (rewrite lookup_insert_eq in Ha || rewrite lookup_insert_ne in Ha by done).
  simplify_eq.
  apply bind_inv in Hr as (? & ? & ->%assign_inv & Hr).
  apply assign_inv in Hr as ->.
  by eexists _, _, _, _.
Qed.

(** *** Names a statement leaves alone *)













(** *** The scripts as a whole *)

Lemma vec_fit_width docs f Xm :
  vec_fit docs = inr (f, Xm) → n_features Xm = length (idf_ f).
Proof.
  unfold vec_fit. destruct (count_vocab false docs ∅) as [vocab counts].
  destruct (decide _); intros; by simplify_eq.
Qed.

Lemma clf_fit_width C it Xm y c :
  clf_fit C it Xm y = inr c → length (coef_ c) = n_features Xm.
Proof.
  unfold clf_fit. destruct (decide _); intros; simplify_eq. apply lbfgs_dim.
Qed.

Lemma build_dataset_run p0 :
  ∃ d, data = inr d ∧ build_dataset p0 = (inr (), with_global "data" (VFrame d) p0).
Proof.
  eexists. split; [apply data_frame|].
  unfold build_dataset, mbind, M_bind, lift. by rewrite data_frame.
Qed.

Lemma train_1_0_inv d p0 p1 :
  train_1_0 (with_global "data" (VFrame d) p0) = (inr (), p1) →
  train_on_1_0 d (Some 42%Z) (with_global "data" (VFrame d) p0) = (inr (), p1).
Proof.
  unfold train_1_0. intros (v & ? & (Hv & ->)%global_inv & Hr)%bind_inv.
  cbn [globals with_global] in Hv. rewrite lookup_insert_eq in Hv. by simplify_eq.
Qed.

Lemma train_1_1_inv d p0 p1 :
  train_1_1 (with_global "data" (VFrame d) p0) = (inr (), p1) →
  train_on_1_1 d (Some 42%Z) (with_global "data" (VFrame d) p0) = (inr (), p1).
Proof.
  unfold train_1_1. intros (v & ? & (Hv & ->)%global_inv & Hr)%bind_inv.
  cbn [globals with_global] in Hv. rewrite lookup_insert_eq in Hv. by simplify_eq.
Qed.

(** What is common to the two scripts once training has completed in a
    process where [clf] and [vectorizer] are bound to the fitted objects:
    the two dumps and the reload give back these objects. *)
Lemma save_and_serve_inv p1 p c f C it :
  globals p1 !! "clf" = Some (VObj (LogisticRegression C it (Some c))) →
  globals p1 !! "vectorizer" = Some (VObj (TfidfVectorizer (Some f))) →
  (save_artifacts;; serve_setup) p1 = (inr (), p) →
  p = after_serve_setup (VObj (LogisticRegression C it (Some c)))
        (VObj (TfidfVectorizer (Some f)))
        (after_save (VObj (LogisticRegression C it (Some c)))
           (VObj (TfidfVectorizer (Some f))) p1).
Proof.
  intros Hc Hv ([] & p2 & Hsave & Hserve)%bind_inv.
  apply save_artifacts_inv in Hsave as (vc & vv & Hc' & Hv' & ->).
  rewrite Hc in Hc'. rewrite Hv in Hv'. simplify_eq.
  apply serve_setup_inv in Hserve as (vc & vv & bc & bv & Hbc & Huc & Hbv & Huv & ->).
  unfold after_save in Hbc, Hbv. cbn [fs with_file] in Hbc, Hbv.
  rewrite lookup_insert_ne, lookup_insert_eq in Hbc by done.
  rewrite lookup_insert_eq in Hbv. simplify_eq.
  rewrite unpickle_pickle in Huc, Huv. by simplify_eq.
Qed.






(** *** Independence from the files and the numpy generator *)

Lemma oblivious_bind {A B} (m : M A) (f : A → M B) :
  oblivious m → (∀ a, oblivious (f a)) → oblivious (m ≫= f).
Proof.
  intros Hm Hf p q Hpq. unfold mbind, M_bind.
  destruct (Hm p q Hpq) as [E Hpq'].
  destruct (m p) as [[e|a] p'], (m q) as [[e'|a'] q']; simpl in *; simplify_eq; [done|].
  by apply Hf.
Qed.

Lemma oblivious_pure {A} (m : M A) :
  (∀ p q, (m p).1 = (m q).1) → (∀ p, (m p).2 = p) → oblivious m.
Proof. intros H1 H2 p q Hpq. by rewrite !H2. Qed.

Lemma oblivious_global name : oblivious (global name).
Proof.
  intros p q [Hs Hg]. unfold global. rewrite Hg.
  by destruct (globals q !! name).
Qed.

Lemma oblivious_assign name v : oblivious (assign name v).
Proof. intros p q [Hs Hg]. split; [done|]. split; simpl; congruence. Qed.

Lemma oblivious_print line : oblivious (print line).
Proof. intros p q [Hs Hg]. split; [done|]. split; simpl; congruence. Qed.

Lemma oblivious_call {A} name attr (method : Obj → Result (A * Obj)) :
  oblivious (call name attr method).
Proof.
  unfold call. apply oblivious_bind; [apply oblivious_global|].
  intros [| | | | |o| |]; try (by apply oblivious_pure).
  destruct (method o) as [e|[a o']]; [by apply oblivious_pure|].
  apply oblivious_bind; [apply oblivious_assign|intros _; by apply oblivious_pure].
Qed.

Lemma seeded_split_pure {A B} (X : Series A) (y : Series B) ts seed p q :
  (train_test_split X y ts (Some seed) p).1 = (train_test_split X y ts (Some seed) q).1
  ∧ (train_test_split X y ts (Some seed) p).2 = p.
Proof.
  unfold train_test_split.
  destruct (decide _); [|done]. destruct (decide _); [done|].
  unfold mbind, M_bind, lift, mret, M_ret. simpl.
  repeat (destruct (iloc _ _); [done|]). done.
Qed.

Lemma oblivious_seeded_split {A B} (X : Series A) (y : Series B) ts seed :
  oblivious (train_test_split X y ts (Some seed)).
Proof.
  apply oblivious_pure.
  - intros p q. apply (seeded_split_pure X y ts seed p q).
  - intros p. apply (seeded_split_pure X y ts seed p p).
Qed.

Ltac oblivious_steps :=
  repeat first
    [ apply oblivious_call
    | apply oblivious_assign
    | apply oblivious_print
    | apply oblivious_seeded_split
    | apply oblivious_bind; [|intros ?] ].

Lemma oblivious_train_on_1_0 d seed : oblivious (train_on_1_0 d (Some seed)).
Proof.
  unfold train_on_1_0. apply oblivious_bind; [apply oblivious_seeded_split|].
  intros [[[X_train X_test] y_train] y_test]. oblivious_steps.
Qed.

Lemma oblivious_train_on_1_1 d seed : oblivious (train_on_1_1 d (Some seed)).
Proof.
  unfold train_on_1_1. apply oblivious_bind; [apply oblivious_seeded_split|].
  intros [[[X_train X_test] y_train] y_test]. oblivious_steps.
Qed.

Lemma same_program_state_boot files1 rng1 files2 rng2 :
  same_program_state (boot files1 rng1) (boot files2 rng2).
Proof. done. Qed.

(** The blobs a completed dump leaves under the two names are determined
    by the program state. *)
Lemma saved_blobs_agree p q p' q' :
  same_program_state p q →
  save_artifacts p = (inr (), p') → save_artifacts q = (inr (), q') →
  fs p' !! "spam_model.pkl" = fs q' !! "spam_model.pkl"
  ∧ fs p' !! "tfidf_vectorizer.pkl" = fs q' !! "tfidf_vectorizer.pkl".
Proof.
  intros [_ Hg] (vc & vv & Hc & Hv & ->)%save_artifacts_inv
                (vc' & vv' & Hc' & Hv' & ->)%save_artifacts_inv.
  rewrite Hg in Hc, Hv. simplify_eq.
  unfold after_save. cbn [fs with_file].
  by repeat (rewrite lookup_insert_eq || rewrite lookup_insert_ne by done).
Qed.

Lemma oblivious_runs_alike train p0 q0 :
  oblivious train → same_program_state p0 q0 → runs_alike train p0 q0.
Proof.
  intros Hob Hpq. destruct (Hob _ _ Hpq) as (Hres & Hout & Hg).
  unfold runs_alike. split_and!; try done.
  - intros name _. by rewrite Hg.
  - unfold fitted_vectorizer. by rewrite Hg.
  - unfold fitted_classifier. by rewrite Hg.
  - intros p q ([] & p1 & Hp1 & Hp)%bind_inv ([] & q1 & Hq1 & Hq)%bind_inv.
    eapply saved_blobs_agree; [|done..].
    rewrite Hp1, Hq1 in Hout, Hg. done.
Qed.

(** C3: for every frame and seed, two runs of the training section of
    either script, started on machines with different files and different
    numpy generator states, end alike: the same outcome, the same output
    and the same module namespace, hence the same train/test split, the
    same fitted vocabulary and IDF weights and the same classifier weights;
    and when both runs go on to dump their artifacts, the two files hold
    the same blobs. *)
Theorem training_is_deterministic
    (d : DataFrame) (seed : Z) (files1 files2 : gmap string Blob) (rng1 rng2 : RNG) :
  runs_alike (train_on_1_0 d (Some seed)) (boot files1 rng1) (boot files2 rng2)
  ∧ runs_alike (train_on_1_1 d (Some seed)) (boot files1 rng1) (boot files2 rng2).
Proof.
  split; apply oblivious_runs_alike;
    auto using oblivious_train_on_1_0, oblivious_train_on_1_1, same_program_state_boot.
Qed.

(** *** Completion of the scripts *)

Lemma bind_run {A B} (m : M A) (f : A → M B) p a p' :
  m p = (inr a, p') → (m ≫= f) p = f a p'.
Proof. intros E. unfold mbind, M_bind. by rewrite E. Qed.

Lemma call_run {A} name attr (method : Obj → Result (A * Obj)) p o a o' :
  globals p !! name = Some (VObj o) → method o = inr (a, o') →
  call name attr method p = (inr a, with_global name (VObj o') p).
Proof.
  intros E Em. unfold call, mbind, M_bind, global. by rewrite E, Em.
Qed.

Lemma iloc_series_run {A} (l : list A) idx :
  Forall (λ i, i < length l) idx → ∃ r, iloc (series l) idx = inr r.
Proof.
  intros Hidx. unfold iloc.
  destruct (mapM (λ i, series l !! i) idx) as [r|] eqn:E; [eauto|].
  assert (is_Some (mapM (λ i, series l !! i) idx)) as [r Hr]; [|congruence].
  apply mapM_is_Some. eapply Forall_impl; [done|].
  intros i Hi. simpl. rewrite series_lookup.
  destruct (lookup_lt_is_Some_2 l i Hi) as [x ->]. by eexists.
Qed.

Lemma permutation_bound r n : Forall (λ i, i < n) (permutation r n).
Proof.
  apply Forall_forall. intros i Hi. rewrite permutation_perm in Hi.
  apply elem_of_seq in Hi. lia.
Qed.

Lemma length_permutation r n : length (permutation r n) = n.
Proof. by rewrite permutation_perm, length_seq. Qed.

Lemma train_rows_bound ts r n : Forall (λ i, i < n) (train_rows ts n (permutation r n)).
Proof.
  unfold train_rows. apply Forall_take, Forall_drop, permutation_bound.
Qed.

Lemma test_rows_bound ts r n : Forall (λ i, i < n) (test_rows ts n (permutation r n)).
Proof. unfold test_rows. apply Forall_take, permutation_bound. Qed.

Lemma seeded_split_run {A B} (l : list A) (l' : list B) ts seed p :
  length l' = length l → length l - n_test_of ts (length l) ≠ 0 →
  ∃ X_train X_test y_train y_test,
    train_test_split (series l) (series l') ts (Some seed) p
    = (inr (X_train, X_test, y_train, y_test), p).
Proof.
  intros Hlen Hn. unfold train_test_split. rewrite !length_series.
  rewrite decide_True by done. rewrite decide_False by done.
  rewrite (bind_run _ _ _ _ _ (draw_permutation_seeded seed (length l) p)).
  destruct (iloc_series_run l _ (train_rows_bound ts (RandomState seed) (length l)))
    as [X_train E1].
  destruct (iloc_series_run l _ (test_rows_bound ts (RandomState seed) (length l)))
    as [X_test E2].
  destruct (iloc_series_run l' (train_rows ts (length l)
              (permutation (RandomState seed) (length l)))) as [y_train E3].
  { rewrite Hlen. apply train_rows_bound. }
  destruct (iloc_series_run l' (test_rows ts (length l)
              (permutation (RandomState seed) (length l)))) as [y_test E4].
  { rewrite Hlen. apply test_rows_bound. }
  exists X_train, X_test, y_train, y_test.
  unfold mbind, M_bind, lift. by rewrite E1, E2, E3, E4.
Qed.

(** *** The vectorizer finds a token *)

Lemma count_tokens_nonempty fixed ts vocab c :
  vocab ≠ ∅ → (count_tokens fixed ts vocab c).1 ≠ ∅.
Proof.
  revert vocab c. induction ts as [|t ts IH]; intros vocab c Hne; simpl; [done|].
  destruct (vocab !! t); [by apply IH|].
  destruct fixed; apply IH; [done|]. apply insert_non_empty.
Qed.

Lemma count_tokens_first ts vocab c :
  ts ≠ [] → (count_tokens false ts vocab c).1 ≠ ∅.
Proof.
  destruct ts as [|t ts]; [done|]. intros _. simpl.
  destruct (vocab !! t) as [i|] eqn:E.
  - apply count_tokens_nonempty. intros ->. by rewrite lookup_empty in E.
  - apply count_tokens_nonempty, insert_non_empty.
Qed.

Lemma count_vocab_nonempty fixed docs vocab :
  vocab ≠ ∅ → (count_vocab fixed docs vocab).1 ≠ ∅.
Proof.
  revert vocab. induction docs as [|d ds IH]; intros vocab Hne; simpl; [done|].
  pose proof (count_tokens_nonempty fixed (analyze d) vocab ∅ Hne) as Hd.
  destruct (count_tokens fixed (analyze d) vocab ∅) as [v1 c]. simpl in Hd.
  specialize (IH v1 Hd). by destruct (count_vocab fixed ds v1).
Qed.

Lemma count_vocab_length fixed docs vocab :
  length (count_vocab fixed docs vocab).2 = length docs.
Proof.
  revert vocab. induction docs as [|d ds IH]; intros vocab; simpl; [done|].
  destruct (count_tokens fixed (analyze d) vocab ∅) as [v1 c].
  specialize (IH v1). destruct (count_vocab fixed ds v1). simpl in *. by rewrite IH.
Qed.

Lemma vec_fit_run docs :
  docs ≠ [] → (∀ d, d ∈ docs → analyze d ≠ []) →
  ∃ f Xm, vec_fit docs = inr (f, Xm) ∧ length (m_rows Xm) = length docs.
Proof.
  intros Hne Htok. unfold vec_fit.
  pose proof (count_vocab_length false docs ∅) as Hlen.
  assert (Hv : (count_vocab false docs ∅).1 ≠ ∅).
  { destruct docs as [|d ds]; [done|]. simpl.
    pose proof (count_tokens_first (analyze d) ∅ ∅ (Htok d ltac:(left))) as Hd.
    destruct (count_tokens false (analyze d) ∅ ∅) as [v1 c]. simpl in Hd.
    pose proof (count_vocab_nonempty false ds v1 Hd).
    by destruct (count_vocab false ds v1). }
  destruct (count_vocab false docs ∅) as [vocab counts]. simpl in *.
  rewrite decide_False by done. eexists _, _. split; [done|].
  unfold tfidf_matrix. cbn [m_rows]. by rewrite length_fmap.
Qed.

(** *** Both labels reach the train rows *)

(** More distinct positions than one label value has rows must hit the
    other label value. *)
Lemma rows_beyond (idx : list nat) k :
  NoDup idx → k < length idx → ∃ i : nat, i ∈ idx ∧ (k ≤ i)%nat.
Proof.
  intros Hnd Hlen.
  destruct (decide (Exists (λ i : nat, (k ≤ i)%nat) idx)) as [Hex|Hnex].
  { apply Exists_exists in Hex as (i & ? & ?). eauto. }
  apply not_Exists_Forall in Hnex; [|apply _].
  assert (idx ⊆+ seq 0 k) as Hsub%submseteq_length.
  { apply NoDup_submseteq; [done|]. intros i Hi.
    rewrite Forall_forall in Hnex. specialize (Hnex i Hi). simpl in Hnex.
    apply elem_of_seq. lia. }
  rewrite length_seq in Hsub. lia.
Qed.

Lemma rows_below (idx : list nat) k n :
  NoDup idx → Forall (λ i, i < n) idx → n - k < length idx →
  ∃ i : nat, i ∈ idx ∧ (i < k)%nat.
Proof.
  intros Hnd Hb Hlen.
  destruct (decide (Exists (λ i : nat, (i < k)%nat) idx)) as [Hex|Hnex].
  { apply Exists_exists in Hex as (i & ? & ?). eauto. }
  apply not_Exists_Forall in Hnex; [|apply _].
  assert (idx ⊆+ seq k (n - k)) as Hsub%submseteq_length.
  { apply NoDup_submseteq; [done|]. intros i Hi.
    rewrite Forall_forall in Hnex, Hb. specialize (Hnex i Hi). specialize (Hb i Hi).
    simpl in Hnex. apply elem_of_seq. lia. }
  rewrite length_seq in Hsub. lia.
Qed.

Lemma n_test_600 : n_test_of (1 # 5) 600 = 120.
Proof. reflexivity. Qed.

Lemma train_rows_facts r :
  NoDup (train_rows (1 # 5) 600 (permutation r 600))
  ∧ length (train_rows (1 # 5) 600 (permutation r 600)) = 480
  ∧ Forall (λ i, i < 600) (train_rows (1 # 5) 600 (permutation r 600)).
Proof.
  split_and!; [| |apply train_rows_bound].
  - unfold train_rows. eapply sublist_NoDup; [|apply sublist_take].
    eapply sublist_NoDup; [|apply sublist_drop]. apply permutation_NoDup.
  - unfold train_rows. rewrite n_test_600.
    rewrite length_take, length_drop, length_permutation. lia.
Qed.

Lemma iloc_series_elem_of {A} (l : list A) idx r i x :
  iloc (series l) idx = inr r → i ∈ idx → l !! i = Some x → x ∈ values r.
Proof.
  intros Hr%iloc_series_values Hi Hx.
  induction Hr as [|j y idx' r' E _ IH]; [by apply elem_of_nil in Hi|].
  apply elem_of_cons in Hi as [->|Hi].
  - rewrite Hx in E. simplify_eq. left.
  - right. by apply IH.
Qed.

Lemma iloc_length {A} (s : Series A) idx r :
  iloc s idx = inr r → length r = length idx.
Proof. intros Hr%iloc_inv. symmetry. by eapply Forall2_length. Qed.

Lemma both_labels_in_train r y_train :
  iloc (series (replicate 300 1%Z ++ replicate 300 0%Z))
       (train_rows (1 # 5) 600 (permutation r 600)) = inr y_train →
  1%Z ∈ values y_train ∧ 0%Z ∈ values y_train.
Proof.
  intros Hy. destruct (train_rows_facts r) as (Hnd & Hlen & Hb). split.
  - destruct (rows_below _ 300 600 Hnd Hb) as (i & Hi & Hlt); [lia|].
    eapply iloc_series_elem_of; [done..|].
    rewrite lookup_app_l by (rewrite length_replicate; lia).
    by apply lookup_replicate_2.
  - destruct (rows_beyond _ 300 Hnd) as (i & Hi & Hge); [lia|].
    eapply iloc_series_elem_of; [done..|].
    rewrite Forall_forall in Hb. specialize (Hb i Hi). simpl in Hb.
    rewrite lookup_app_r by (rewrite length_replicate; lia).
    apply lookup_replicate_2. rewrite length_replicate. lia.
Qed.

(** *** The training section, forwards *)

Lemma bind_assign {B} name v (f : () → M B) p :
  (assign name v ≫= f) p = f () (with_global name v p).
Proof. done. Qed.

Lemma fit_transform_run docs st f Xm :
  vec_fit docs = inr (f, Xm) →
  fit_transform docs (TfidfVectorizer st) = inr (Xm, TfidfVectorizer (Some f)).
Proof. intros E. unfold fit_transform. by rewrite E. Qed.

Lemma fit_run C it st Xm y c :
  clf_fit C it Xm y = inr c →
  fit Xm y (LogisticRegression C it st) = inr ((), LogisticRegression C it (Some c)).
Proof. intros E. unfold fit. by rewrite E. Qed.

Lemma predict_run C it c X :
  n_features X = length (coef_ c) →
  predict X (LogisticRegression C it (Some c))
  = inr (predict_row c <$> m_rows X, LogisticRegression C it (Some c)).
Proof. intros E. unfold predict. by rewrite decide_True. Qed.

Ltac run_call Hm :=
  erewrite bind_run;
  [|eapply call_run;
    [cbn [globals with_global after_split];
     repeat (rewrite lookup_insert_eq || rewrite lookup_insert_ne by done); reflexivity
    |apply Hm]].

Lemma train_on_1_1_run d seed p0 X_train X_test y_train y_test f Xm c :
  train_test_split (series (col_text d)) (series (col_label d)) (1 # 5) (Some seed) p0
    = (inr (X_train, X_test, y_train, y_test), p0) →
  vec_fit (values X_train) = inr (f, Xm) →
  clf_fit 1 100 Xm (values y_train) = inr c →
  train_on_1_1 d (Some seed) p0
  = (inr (), after_train_1_1 X_train X_test y_train y_test f Xm c p0).
Proof.
  intros Hs Hfit Hcf. unfold train_on_1_1.
  rewrite (bind_run _ _ _ _ _ Hs). rewrite !bind_assign.
  run_call (fit_transform_run _ None _ _ Hfit). rewrite !bind_assign.
  eapply call_run; [|apply (fit_run _ _ None _ _ _ Hcf)].
  cbn [globals with_global]. by rewrite lookup_insert_eq.
Qed.

Lemma train_on_1_0_run d seed p0 X_train X_test y_train y_test f Xm c :
  train_test_split (series (col_text d)) (series (col_label d)) (1 # 5) (Some seed) p0
    = (inr (X_train, X_test, y_train, y_test), p0) →
  vec_fit (values X_train) = inr (f, Xm) →
  clf_fit 1 100 Xm (values y_train) = inr c →
  train_on_1_0 d (Some seed) p0
  = (inr (), after_train_1_0 X_train X_test y_train y_test f Xm c p0).
Proof.
  intros Hs Hfit Hcf. unfold train_on_1_0.
  rewrite (bind_run _ _ _ _ _ Hs). rewrite !bind_assign.
  run_call (fit_transform_run _ None _ _ Hfit). rewrite !bind_assign.
  run_call (transform_fitted f (values X_test)). rewrite !bind_assign.
  run_call (fit_run _ _ None _ _ _ Hcf).
  assert (Hw : n_features (vec_transform f (values X_test)).2 = length (coef_ c)).
  { rewrite vec_transform_matrix. cbn [tfidf_matrix n_features].
    by rewrite <- (vec_fit_width _ _ _ Hfit), (clf_fit_width _ _ _ _ _ Hcf). }
  run_call (predict_run 1 100 c _ Hw). rewrite !bind_assign.
  done.
Qed.

(** *** The scripts, forwards *)

Lemma training_inputs_fit p0 seed :
  (∀ d, d ∈ spam_texts ++ ham_texts → analyze d ≠ []) →
  ∃ X_train X_test y_train y_test f Xm c,
    train_test_split
      (series (spam_texts ++ ham_texts))
      (series (replicate 300 1%Z ++ replicate 300 0%Z)) (1 # 5) (Some seed) p0
      = (inr (X_train, X_test, y_train, y_test), p0)
    ∧ vec_fit (values X_train) = inr (f, Xm)
    ∧ clf_fit 1 100 Xm (values y_train) = inr c.
Proof.
  intros Htok.
  assert (Hlab : length (replicate 300 1%Z ++ replicate 300 0%Z)
                 = length (spam_texts ++ ham_texts)).
  { by rewrite corpus_length, length_app, !length_replicate. }
  destruct (seeded_split_run (spam_texts ++ ham_texts)
              (replicate 300 1%Z ++ replicate 300 0%Z) (1 # 5) seed p0 Hlab)
    as (X_train & X_test & y_train & y_test & Hs).
  { rewrite corpus_length, n_test_600. done. }
  pose proof (train_test_split_inv _ _ _ _ _ _ _ Hs) as (_ & _ & Htr & _ & Hytr & _).
  rewrite !length_series, corpus_length in Htr, Hytr. cbn [fst snd] in Htr, Hytr.
  destruct (train_rows_facts (RandomState seed)) as (_ & Hlen & _).
  assert (Hn : length X_train = 480) by (by rewrite (iloc_length _ _ _ Htr)).
  assert (Hny : length y_train = 480) by (by rewrite (iloc_length _ _ _ Hytr)).
  destruct (vec_fit_run (values X_train)) as (f & Xm & Hfit & Hrows).
  { intros E. apply (f_equal length) in E. unfold values in E.
    rewrite length_fmap, Hn in E. done. }
  { intros d [[i x] [-> Hin]]%list_elem_of_fmap. apply Htok.
    apply (iloc_series_elem _ _ _ _ Htr) in Hin. simpl in *.
    by eapply list_elem_of_lookup_2. }
  exists X_train, X_test, y_train, y_test, f, Xm, (lbfgs 1 100 Xm (values y_train)).
  split_and!; [done..|]. unfold clf_fit. rewrite decide_True; [done|].
  destruct (both_labels_in_train _ _ Hytr). split_and!; [|done..].
  rewrite Hrows. unfold values. by rewrite !length_fmap, Hn, Hny.
Qed.

Lemma save_artifacts_run vc vv p :
  globals p !! "clf" = Some vc → globals p !! "vectorizer" = Some vv →
  save_artifacts p = (inr (), after_save vc vv p).
Proof.
  intros Hc Hv. unfold save_artifacts, mbind, M_bind, global, joblib_dump.
  rewrite Hc. cbn [globals with_file]. by rewrite Hv.
Qed.

Lemma serve_setup_run vc vv p :
  fs p !! "spam_model.pkl" = Some (pickle vc) →
  fs p !! "tfidf_vectorizer.pkl" = Some (pickle vv) →
  serve_setup p = (inr (), after_serve_setup vc vv p).
Proof.
  intros Hc Hv.
  assert (Hload : ∀ name v q, fs q !! name = Some (pickle v) →
                              joblib_load name q = (inr v, q)).
  { intros name v q E. unfold joblib_load. by rewrite E, unpickle_pickle. }
  unfold serve_setup, app_post. rewrite bind_assign.
  erewrite bind_run; [|by apply Hload]. rewrite bind_assign.
  erewrite bind_run; [|by apply Hload]. rewrite bind_assign.
  unfold mbind, M_bind, global. cbn [globals with_global].
  repeat (rewrite lookup_insert_eq || rewrite lookup_insert_ne by done). done.
Qed.

Lemma save_and_serve_run vc vv p :
  globals p !! "clf" = Some vc → globals p !! "vectorizer" = Some vv →
  (save_artifacts;; serve_setup) p
  = (inr (), after_serve_setup vc vv (after_save vc vv p)).
Proof.
  intros Hc Hv. rewrite (bind_run _ _ _ _ _ (save_artifacts_run vc vv p Hc Hv)).
  apply serve_setup_run; unfold after_save; cbn [fs with_file].
  - by rewrite lookup_insert_ne, lookup_insert_eq.
  - by rewrite lookup_insert_eq.
Qed.

Lemma train_1_0_run d p0 :
  train_1_0 (with_global "data" (VFrame d) p0)
  = train_on_1_0 d (Some 42%Z) (with_global "data" (VFrame d) p0).
Proof.
  unfold train_1_0, mbind, M_bind, global. cbn [globals with_global].
  by rewrite lookup_insert_eq.
Qed.

Lemma train_1_1_run d p0 :
  train_1_1 (with_global "data" (VFrame d) p0)
  = train_on_1_1 d (Some 42%Z) (with_global "data" (VFrame d) p0).
Proof.
  unfold train_1_1, mbind, M_bind, global. cbn [globals with_global].
  by rewrite lookup_insert_eq.
Qed.

Lemma build_dataset_frame p0 :
  build_dataset p0
  = (inr (), with_global "data"
               (VFrame (mkDataFrame (spam_texts ++ ham_texts)
                          (replicate 300 1%Z ++ replicate 300 0%Z))) p0).
Proof. unfold build_dataset, mbind, M_bind, lift. by rewrite data_frame. Qed.

(** Whatever files and generator state the machine has, both scripts run
    to the end, provided the tokeniser finds a token in each of the ten
    sentences: the split leaves 480 train rows, which cannot all carry one
    label, so neither fit is degenerate. *)
Theorem scripts_complete (files : gmap string Blob) (rng : RNG) :
  (∀ d, d ∈ spam_texts ++ ham_texts → analyze d ≠ []) →
  ∃ p p', script_1_0 (boot files rng) = (inr (), p)
          ∧ script_1_1 (boot files rng) = (inr (), p').
Proof.
  intros Htok.
  set (d := mkDataFrame (spam_texts ++ ham_texts)
              (replicate 300 1%Z ++ replicate 300 0%Z)).
  set (p1 := with_global "data" (VFrame d) (boot files rng)).
  destruct (training_inputs_fit p1 42%Z Htok)
    as (X_train & X_test & y_train & y_test & f & Xm & c & Hs & Hfit & Hcf).
  eexists _, _. split.
  - unfold script_1_0. rewrite (bind_run _ _ _ _ _ (build_dataset_frame _)).
    erewrite bind_run; [|rewrite train_1_0_run; by eapply train_on_1_0_run].
    eapply save_and_serve_run; by lookups.
  - unfold script_1_1. rewrite (bind_run _ _ _ _ _ (build_dataset_frame _)).
    erewrite bind_run; [|rewrite train_1_1_run; by eapply train_on_1_1_run].
    eapply save_and_serve_run; by lookups.
Qed.

(** Inference is idempotent: a second call of a handler on the process the
    first call leaves behind gives the same outcome and the same process. *)
Theorem predict_twice (text : string) (p : Process) :
  predict_1_0 text (predict_1_0 text p).2 = predict_1_0 text p
  ∧ predict_1_1 text (predict_1_1 text p).2 = predict_1_1 text p.
Proof.
  by rewrite (stateless_predict_1_0 text p), (stateless_predict_1_1 text p).
Qed.

End Training.

(** ** The decoder of 1.1 *)

Section Decoding.

Ltac decode_cases :=
  cbn -[N.ltb N.eqb N_of_ascii is_continuation];
  repeat match goal with
  | |- context [if ?b then _ else _] =>
      lazymatch b with
      | context [if _ then _ else _] => fail
      | _ => let E := fresh "E" in destruct b eqn:E
      end
  | |- context [match ?s with EmptyString => _ | String _ _ => _ end] =>
      is_var s; destruct s
  end.

Lemma decode_ascii s : all_ascii s = true → decode_utf8_ignore s = s.
Proof.
  induction s as [|c rest IH]; [done|].
  cbn -[N.ltb N_of_ascii]. intros [Hc Hr]%andb_prop.
  rewrite Hc. by rewrite IH.
Qed.

Lemma decode_length_aux n :
  ∀ s, (String.length s ≤ n)%nat →
       (String.length (decode_utf8_ignore s) ≤ String.length s)%nat.
Proof.
  induction n as [|n IH]; intros s Hn.
  { destruct s; [done|]. simpl in Hn. lia. }
  destruct s as [|c0 rest]; [done|].
  decode_cases; cbn [String.length] in *;
    repeat match goal with
    | |- context [String.length (decode_utf8_ignore ?r)] =>
        lazymatch goal with
        | H : (String.length (decode_utf8_ignore r) ≤ _)%nat |- _ => fail
        | _ => let H := fresh "L" in
               assert (H : (String.length (decode_utf8_ignore r) ≤ String.length r)%nat)
                 by (apply IH; cbn [String.length] in *; lia)
        end
    end; cbn [String.length] in *; lia.
Qed.

Lemma decode_length s :
  (String.length (decode_utf8_ignore s) ≤ String.length s)%nat.
Proof. by apply (decode_length_aux (String.length s)). Qed.

Lemma decode_idempotent_aux n :
  ∀ s, (String.length s ≤ n)%nat →
       decode_utf8_ignore (decode_utf8_ignore s) = decode_utf8_ignore s.
Proof.
  induction n as [|n IH]; intros s Hn.
  { destruct s; [done|]. simpl in Hn. lia. }
  destruct s as [|c0 rest]; [done|].
  decode_cases; cbn [String.length] in *;
    try (apply IH; cbn [String.length]; lia); try done.
  all: cbn -[N.ltb N.eqb N_of_ascii is_continuation];
    repeat match goal with H : _ = _ |- _ => rewrite H end;
    cbn -[N.ltb N.eqb N_of_ascii is_continuation];
    rewrite IH by (cbn [String.length]; lia); try done.
Qed.

End Decoding.

Lemma decode_idempotent s :
  decode_utf8_ignore (decode_utf8_ignore s) = decode_utf8_ignore s.
Proof. by apply (decode_idempotent_aux (String.length s)). Qed.

(** ** The dump, the reload and the served state *)

Section Scripts.
Context `{Libs}.

Ltac reads :=
  unfold fitted_vectorizer, fitted_classifier, after_serve_setup, after_save,
    after_train_1_0, after_train_1_1, after_split, with_stdout, with_file;
  cbn [globals with_global fs stdout np_random];
  repeat (rewrite lookup_insert_eq || rewrite lookup_insert_ne by done).

(** Lines 56-65 of 1.0 (46-54 of 1.1) on any process: what the two names
    were bound to is dumped, reloaded and bound again. *)
Lemma save_and_serve_state p1 p :
  (save_artifacts;; serve_setup) p1 = (inr (), p) →
  ∃ vc vv, globals p1 !! "clf" = Some vc ∧ globals p1 !! "vectorizer" = Some vv
           ∧ p = after_serve_setup vc vv (after_save vc vv p1).
Proof.
  intros ([] & p2 & Hsave & Hserve)%bind_inv.
  apply save_artifacts_inv in Hsave as (vc & vv & Hc & Hv & ->).
  apply serve_setup_inv in Hserve as (vc' & vv' & bc & bv & Hbc & Huc & Hbv & Huv & ->).
  unfold after_save in Hbc, Hbv. cbn [fs with_file] in Hbc, Hbv.
  rewrite lookup_insert_ne, lookup_insert_eq in Hbc by done.
  rewrite lookup_insert_eq in Hbv. simplify_eq.
  rewrite unpickle_pickle in Huc, Huv. simplify_eq. eauto.
Qed.

(** The outcome of a handler is a function of what [vectorizer] and [clf]
    are bound to. *)
Lemma call_outcome {A} name attr (method : Obj → Result (A * Obj)) p q :
  globals p !! name = globals q !! name →
  (call name attr method p).1 = (call name attr method q).1.
Proof.
  intros E. unfold call, mbind, M_bind, global. rewrite E.
  destruct (globals q !! name) as [[| | | | |o| |]|]; try done.
  by destruct (method o) as [e|[a o']].
Qed.

Lemma predict_1_0_outcome text p q :
  globals p !! "vectorizer" = globals q !! "vectorizer" →
  globals p !! "clf" = globals q !! "clf" →
  (predict_1_0 text p).1 = (predict_1_0 text q).1.
Proof.
  intros Ev Ec. unfold predict_1_0, mbind at 1 3, M_bind at 1 3.
  pose proof (call_outcome "vectorizer" "transform" (transform [text]) p q Ev) as E1.
  pose proof (stateless_call "vectorizer" "transform" _ (transform_readonly [text]) p) as S1.
  pose proof (stateless_call "vectorizer" "transform" _ (transform_readonly [text]) q) as S2.
  destruct (call "vectorizer" "transform" (transform [text]) p) as [[e|X] p'],
           (call "vectorizer" "transform" (transform [text]) q) as [[e'|X'] q'];
    simpl in *; simplify_eq; [done|].
  unfold mbind, M_bind.
  pose proof (call_outcome "clf" "predict" (predict X') p q Ec) as E2.
  destruct (call "clf" "predict" (predict X') p) as [[e|preds] p'],
           (call "clf" "predict" (predict X') q) as [[e'|preds'] q'];
    simpl in *; simplify_eq; [done|].
  by destruct preds'.
Qed.

Lemma predict_1_1_outcome body p q :
  globals p !! "vectorizer" = globals q !! "vectorizer" →
  globals p !! "clf" = globals q !! "clf" →
  (predict_1_1 body p).1 = (predict_1_1 body q).1.
Proof.
  intros Ev Ec. unfold predict_1_1, mbind at 1 3, M_bind at 1 3.
  set (text := decode_utf8_ignore body).
  pose proof (call_outcome "vectorizer" "transform" (transform [text]) p q Ev) as E1.
  pose proof (stateless_call "vectorizer" "transform" _ (transform_readonly [text]) p) as S1.
  pose proof (stateless_call "vectorizer" "transform" _ (transform_readonly [text]) q) as S2.
  destruct (call "vectorizer" "transform" (transform [text]) p) as [[e|X] p'],
           (call "vectorizer" "transform" (transform [text]) q) as [[e'|X'] q'];
    simpl in *; simplify_eq; [done|].
  unfold mbind, M_bind.
  pose proof (call_outcome "clf" "predict" (predict X') p q Ec) as E2.
  destruct (call "clf" "predict" (predict X') p) as [[e|preds] p'],
           (call "clf" "predict" (predict X') q) as [[e'|preds'] q'];
    simpl in *; simplify_eq; [done|].
  destruct preds'; [done|]. by destruct (decide _).
Qed.

(** The dump and the reload leave the served objects and every answer as
    the training section made them, and the two files hold their pickles. *)
Theorem reload_keeps_model (p1 p : Process) :
  (save_artifacts;; serve_setup) p1 = (inr (), p) →
  globals p !! "clf" = globals p1 !! "clf"
  ∧ globals p !! "vectorizer" = globals p1 !! "vectorizer"
  ∧ fs p !! "spam_model.pkl" = pickle <$> globals p1 !! "clf"
  ∧ fs p !! "tfidf_vectorizer.pkl" = pickle <$> globals p1 !! "vectorizer"
  ∧ (∀ name, name ≠ "spam_model.pkl" → name ≠ "tfidf_vectorizer.pkl" →
       fs p !! name = fs p1 !! name)
  ∧ ∀ text, (predict_1_0 text p).1 = (predict_1_0 text p1).1
            ∧ (predict_1_1 text p).1 = (predict_1_1 text p1).1.
Proof.
  intros (vc & vv & Hc & Hv & ->)%save_and_serve_state.
  assert (Gc : globals (after_serve_setup vc vv (after_save vc vv p1)) !! "clf"
               = globals p1 !! "clf") by (by reads).
  assert (Gv : globals (after_serve_setup vc vv (after_save vc vv p1)) !! "vectorizer"
               = globals p1 !! "vectorizer") by (by reads).
  split_and!; [done|done| | | |].
  - rewrite Hc. by reads.
  - rewrite Hv. by reads.
  - intros name H1 H2. by reads.
  - intros text. split; [by apply predict_1_0_outcome|by apply predict_1_1_outcome].
Qed.

(** *** The final process of a completed script *)

Lemma script_1_0_state p0 p :
  script_1_0 p0 = (inr (), p) →
  ∃ d X_train X_test y_train y_test f Xm c,
    data = inr d
    ∧ train_test_split (series (col_text d)) (series (col_label d)) (1 # 5) (Some 42%Z)
        (with_global "data" (VFrame d) p0)
      = (inr (X_train, X_test, y_train, y_test), with_global "data" (VFrame d) p0)
    ∧ vec_fit (values X_train) = inr (f, Xm)
    ∧ clf_fit 1 100 Xm (values y_train) = inr c
    ∧ p = after_serve_setup (VObj (LogisticRegression 1 100 (Some c)))
            (VObj (TfidfVectorizer (Some f)))
            (after_save (VObj (LogisticRegression 1 100 (Some c)))
               (VObj (TfidfVectorizer (Some f)))
               (after_train_1_0 X_train X_test y_train y_test f Xm c
                  (with_global "data" (VFrame d) p0))).
Proof.
  unfold script_1_0. intros ([] & p' & Hb & Hr)%bind_inv.
  destruct (build_dataset_run p0) as (d & Hd & Hb'). rewrite Hb' in Hb. simplify_eq.
  apply bind_inv in Hr as ([] & p1 & Ht%train_1_0_inv & Hr).
  apply train_on_1_0_inv in Ht
    as (X_train & X_test & y_train & y_test & f & Xm & c & Hs & Hfit & Hcf & ->).
  eapply save_and_serve_inv in Hr as ->; [|by reads..].
  by eexists d, X_train, X_test, y_train, y_test, f, Xm, c.
Qed.

Lemma script_1_1_state p0 p :
  script_1_1 p0 = (inr (), p) →
  ∃ d X_train X_test y_train y_test f Xm c,
    data = inr d
    ∧ train_test_split (series (col_text d)) (series (col_label d)) (1 # 5) (Some 42%Z)
        (with_global "data" (VFrame d) p0)
      = (inr (X_train, X_test, y_train, y_test), with_global "data" (VFrame d) p0)
    ∧ vec_fit (values X_train) = inr (f, Xm)
    ∧ clf_fit 1 100 Xm (values y_train) = inr c
    ∧ p = after_serve_setup (VObj (LogisticRegression 1 100 (Some c)))
            (VObj (TfidfVectorizer (Some f)))
            (after_save (VObj (LogisticRegression 1 100 (Some c)))
               (VObj (TfidfVectorizer (Some f)))
               (after_train_1_1 X_train X_test y_train y_test f Xm c
                  (with_global "data" (VFrame d) p0))).
Proof.
  unfold script_1_1. intros ([] & p' & Hb & Hr)%bind_inv.
  destruct (build_dataset_run p0) as (d & Hd & Hb'). rewrite Hb' in Hb. simplify_eq.
  apply bind_inv in Hr as ([] & p1 & Ht%train_1_1_inv & Hr).
  apply train_on_1_1_inv in Ht
    as (X_train & X_test & y_train & y_test & f & Xm & c & Hs & Hfit & Hcf & ->).
  eapply save_and_serve_inv in Hr as ->; [|by reads..].
  by eexists d, X_train, X_test, y_train, y_test, f, Xm, c.
Qed.

(** The split of a frame does not depend on the process it is drawn in. *)
Lemma seeded_split_same {A B} (X : Series A) (y : Series B) ts seed p q r r' :
  train_test_split X y ts (Some seed) p = (inr r, p) →
  train_test_split X y ts (Some seed) q = (inr r', q) → r' = r.
Proof.
  intros Hp Hq. destruct (seeded_split_pure X y ts seed p q) as [E _].
  rewrite Hp, Hq in E. simpl in E. by simplify_eq.
Qed.

Lemma length_vec_transform_rows f docs :
  length (m_rows (vec_transform f docs).2) = length docs.
Proof.
  rewrite vec_transform_matrix. unfold tfidf_matrix. cbn [m_rows].
  by rewrite !length_fmap.
Qed.

(** What a completed script has done to the machine: the numpy global
    generator is as it was, no file but the two artifact files has
    changed, 1.1 has printed nothing and 1.0 exactly one line, the report
    on the test labels and one prediction per test row. *)
Theorem script_effects (files : gmap string Blob) (rng : RNG) (p p' : Process) :
  script_1_0 (boot files rng) = (inr (), p) →
  script_1_1 (boot files rng) = (inr (), p') →
  np_random p = rng ∧ np_random p' = rng
  ∧ (∀ name, name ≠ "spam_model.pkl" → name ≠ "tfidf_vectorizer.pkl" →
       fs p !! name = files !! name ∧ fs p' !! name = files !! name)
  ∧ stdout p' = []
  ∧ ∃ y_test y_pred,
      globals p !! "y_test" = Some (VLabels y_test)
      ∧ globals p !! "y_pred" = Some (VArray y_pred)
      ∧ stdout p = [classification_report (values y_test) y_pred]
      ∧ length y_pred = length y_test.
Proof.
  intros (d & X_train & X_test & y_train & y_test & f & Xm & c
            & Hd & Hs & Hfit & Hcf & ->)%script_1_0_state
         (d' & X_train' & X_test' & y_train' & y_test' & f' & Xm' & c'
            & Hd' & Hs' & Hfit' & Hcf' & ->)%script_1_1_state.
  split_and!; [done|done| |done|].
  - intros name H1 H2. split; by reads.
  - eexists y_test, _. split_and!; [by reads|by reads|by reads|].
    rewrite length_fmap, length_vec_transform_rows.
    apply train_test_split_inv in Hs as (_ & _ & _ & Hte & _ & Hyte). simpl in *.
    unfold values. rewrite length_fmap.
    apply iloc_inv, Forall2_length in Hte. apply iloc_inv, Forall2_length in Hyte.
    rewrite !length_series in *. congruence.
Qed.

(** *** One model, whatever the machine and the version *)

Lemma estimators_of_split d p q X_train X_test y_train y_test
    X_train' X_test' y_train' y_test' f Xm c f' Xm' c' :
  train_test_split (series (col_text d)) (series (col_label d)) (1 # 5) (Some 42%Z) p
    = (inr (X_train, X_test, y_train, y_test), p) →
  train_test_split (series (col_text d)) (series (col_label d)) (1 # 5) (Some 42%Z) q
    = (inr (X_train', X_test', y_train', y_test'), q) →
  vec_fit (values X_train) = inr (f, Xm) → clf_fit 1 100 Xm (values y_train) = inr c →
  vec_fit (values X_train') = inr (f', Xm') → clf_fit 1 100 Xm' (values y_train') = inr c' →
  X_train' = X_train ∧ X_test' = X_test ∧ y_train' = y_train ∧ y_test' = y_test
  ∧ f' = f ∧ Xm' = Xm ∧ c' = c.
Proof.
  intros Hs Hs' Hfit Hcf Hfit' Hcf'.
  pose proof (seeded_split_same _ _ _ _ _ _ _ _ Hs Hs') as E. simplify_eq.
  rewrite Hfit in Hfit'. simplify_eq. rewrite Hcf in Hcf'. by simplify_eq.
Qed.

(** The process a script leaves behind is the same on every machine: the
    files found at start (stale artifact files included) and the state of
    the numpy generator change neither the namespace, nor the output, nor
    the two artifact files, nor any answer of the handler. *)
Theorem served_state_same_on_every_machine
    (files1 files2 : gmap string Blob) (rng1 rng2 : RNG) (p q p' q' : Process) :
  script_1_0 (boot files1 rng1) = (inr (), p) →
  script_1_0 (boot files2 rng2) = (inr (), q) →
  script_1_1 (boot files1 rng1) = (inr (), p') →
  script_1_1 (boot files2 rng2) = (inr (), q') →
  (globals p = globals q ∧ stdout p = stdout q
   ∧ fs p !! "spam_model.pkl" = fs q !! "spam_model.pkl"
   ∧ fs p !! "tfidf_vectorizer.pkl" = fs q !! "tfidf_vectorizer.pkl"
   ∧ ∀ text, (predict_1_0 text p).1 = (predict_1_0 text q).1)
  ∧ (globals p' = globals q' ∧ stdout p' = stdout q'
     ∧ fs p' !! "spam_model.pkl" = fs q' !! "spam_model.pkl"
     ∧ fs p' !! "tfidf_vectorizer.pkl" = fs q' !! "tfidf_vectorizer.pkl"
     ∧ ∀ body, (predict_1_1 body p').1 = (predict_1_1 body q').1).
Proof.
  intros (d & X1 & X2 & y1 & y2 & f & Xm & c & Hd & Hs & Hfit & Hcf & ->)%script_1_0_state
         (d0 & X1' & X2' & y1' & y2' & f' & Xm' & c' & Hd0 & Hs' & Hfit' & Hcf' & ->)%script_1_0_state
         (d1 & Z1 & Z2 & w1 & w2 & g & Zm & k & Hd1 & Ht & Hgfit & Hkf & ->)%script_1_1_state
         (d2 & Z1' & Z2' & w1' & w2' & g' & Zm' & k' & Hd2 & Ht' & Hgfit' & Hkf' & ->)%script_1_1_state.
  rewrite Hd in Hd0, Hd1, Hd2. simplify_eq.
  destruct (estimators_of_split _ _ _ _ _ _ _ _ _ _ _ _ _ _ _ _ _ Hs Hs' Hfit Hcf Hfit' Hcf')
    as (-> & -> & -> & -> & -> & -> & ->).
  destruct (estimators_of_split _ _ _ _ _ _ _ _ _ _ _ _ _ _ _ _ _ Ht Ht' Hgfit Hkf Hgfit' Hkf')
    as (-> & -> & -> & -> & -> & -> & ->).
  split; split_and!; try done; try by reads.
  - intros text. apply predict_1_0_outcome; by reads.
  - intros body. apply predict_1_1_outcome; by reads.
Qed.

(** The two versions train one model: started on the same machine they
    bind [clf] and [vectorizer] to the same fitted objects and write the
    same two artifact files, so either version can serve what the other
    has trained. *)
Theorem versions_train_same_model (p0 p p' : Process) :
  script_1_0 p0 = (inr (), p) →
  script_1_1 p0 = (inr (), p') →
  globals p !! "clf" = globals p' !! "clf"
  ∧ globals p !! "vectorizer" = globals p' !! "vectorizer"
  ∧ (∃ f c, ready p f c ∧ ready p' f c)
  ∧ fs p !! "spam_model.pkl" = fs p' !! "spam_model.pkl"
  ∧ fs p !! "tfidf_vectorizer.pkl" = fs p' !! "tfidf_vectorizer.pkl"
  ∧ ∀ text, (predict_1_0 text p).1 = (predict_1_0 text p').1
            ∧ (predict_1_1 text p).1 = (predict_1_1 text p').1.
Proof.
  intros (d & X1 & X2 & y1 & y2 & f & Xm & c & Hd & Hs & Hfit & Hcf & ->)%script_1_0_state
         (d1 & Z1 & Z2 & w1 & w2 & g & Zm & k & Hd1 & Ht & Hgfit & Hkf & ->)%script_1_1_state.
  rewrite Hd in Hd1. simplify_eq.
  destruct (estimators_of_split _ _ _ _ _ _ _ _ _ _ _ _ _ _ _ _ _ Hs Ht Hfit Hcf Hgfit Hkf)
    as (-> & -> & -> & -> & -> & -> & ->).
  assert (Hw : length (idf_ f) = length (coef_ c)).
  { by rewrite <- (vec_fit_width _ _ _ Hfit), (clf_fit_width _ _ _ _ _ Hcf). }
  split_and!; try by reads.
  - exists f, c. split; (split_and!; [by reads|by reads|done]).
  - intros text. split; [apply predict_1_0_outcome|apply predict_1_1_outcome]; by reads.
Qed.

(** *** The two handlers side by side *)

(** The handler of 1.1 is the handler of 1.0 behind the lenient decoder:
    in every process it says yes exactly when 1.0 says spam on the decoded
    body, no exactly when 1.0 says ham, and raises exactly what 1.0 raises
    (on a body that decoding leaves as it is, on the same input). *)
Theorem handlers_agree_on_decoded_body (p : Process) (body : string) :
  ((predict_1_0 (decode_utf8_ignore body) p).1 = inr {[ "prediction" := "spam" ]}
   ↔ (predict_1_1 body p).1 = inr {[ "header" := "X-Spam-ML-Score: yes" ]})
  ∧ ((predict_1_0 (decode_utf8_ignore body) p).1 = inr {[ "prediction" := "ham" ]}
     ↔ (predict_1_1 body p).1 = inr {[ "header" := "X-Spam-ML-Score: no" ]})
  ∧ ∀ e, (predict_1_0 (decode_utf8_ignore body) p).1 = inl e
         ↔ (predict_1_1 body p).1 = inl e.
Proof.
  unfold predict_1_0, predict_1_1. set (text := decode_utf8_ignore body).
  unfold mbind, M_bind.
  destruct (call "vectorizer" "transform" (transform [text]) p) as [[e|X] p1];
    [by split_and!; try intros e'; split|].
  destruct (call "clf" "predict" (predict X) p1) as [[e|preds] p2];
    [by split_and!; try intros e'; split|].
  destruct preds as [|prediction preds]; [by split_and!; try intros e'; split|].
  unfold mret, M_ret. cbn [fst].
  destruct (decide (prediction = 1%Z)); split_and!; try intros e'; split; intros E;
    try done.
  all: apply (inj inr) in E;
    apply (f_equal (λ m : gmap string string, m !! "prediction")) in E
    || apply (f_equal (λ m : gmap string string, m !! "header")) in E.
  all: by rewrite !lookup_singleton_eq in E.
Qed.

(** Dropping the undecodable bytes is a projection: an ASCII body is left
    as it is, no body gets longer, a decoded body is left as it is by a
    second decoding, and so the handler of 1.1 treats a body and its
    decoding alike. *)
Theorem decode_ignore_projection (s : string) :
  (all_ascii s = true → decode_utf8_ignore s = s)
  ∧ (String.length (decode_utf8_ignore s) ≤ String.length s)%nat
  ∧ decode_utf8_ignore (decode_utf8_ignore s) = decode_utf8_ignore s
  ∧ ∀ p, predict_1_1 (decode_utf8_ignore s) p = predict_1_1 s p.
Proof.
  split_and!.
  - apply decode_ascii.
  - apply decode_length.
  - apply decode_idempotent.
  - intros p. unfold predict_1_1. by rewrite decode_idempotent.
Qed.

(** *** When a handler answers *)

Lemma classify_inv text p preds p' :
  (X ← call "vectorizer" "transform" (transform [text]);
   call "clf" "predict" (predict X)) p = (inr preds, p') →
  ∃ f c, ready p f c ∧ preds = [predict_row c (features f text)].
Proof.
  intros (X & p1 & Hc1 & Hc2)%bind_inv.
  apply call_inv in Hc1 as (o & o' & Ho & Hm & ->).
  apply transform_inv in Hm as (f & -> & -> & ->).
  apply call_inv in Hc2 as (o & o' & Ho2 & Hm & ->).
  cbn [globals with_global] in Ho2. rewrite lookup_insert_ne in Ho2 by done.
  apply predict_inv in Hm as (C & it & c & -> & -> & Hdim & ->).
  rewrite vec_transform_matrix in Hdim |- *.
  cbn [tfidf_matrix n_features m_rows fmap list_fmap] in Hdim |- *.
  exists f, c. split; [|done].
  unfold ready, fitted_vectorizer, fitted_classifier. by rewrite Ho, Ho2.
Qed.

Lemma predict_1_0_inv text p resp :
  (predict_1_0 text p).1 = inr resp → ∃ f c, ready p f c.
Proof.
  unfold predict_1_0. intros Hp.
  pose proof (classify_inv text p) as Hc. unfold mbind, M_bind in *.
  destruct (call "vectorizer" "transform" (transform [text]) p) as [[e|X] p1]; [done|].
  destruct (call "clf" "predict" (predict X) p1) as [[e|preds] p2]; [done|].
  destruct (Hc preds p2 eq_refl) as (f & c & Hr & _). eauto.
Qed.

Lemma predict_1_1_inv body p resp :
  (predict_1_1 body p).1 = inr resp → ∃ f c, ready p f c.
Proof.
  unfold predict_1_1. intros Hp.
  pose proof (classify_inv (decode_utf8_ignore body) p) as Hc. unfold mbind, M_bind in *.
  destruct (call "vectorizer" "transform" (transform [decode_utf8_ignore body]) p)
    as [[e|X] p1]; [done|].
  destruct (call "clf" "predict" (predict X) p1) as [[e|preds] p2]; [done|].
  destruct (Hc preds p2 eq_refl) as (f & c & Hr & _). eauto.
Qed.

Lemma transform_no_index_error docs o : transform docs o ≠ inl IndexError.
Proof. destruct o as [[f|]|]; [by rewrite transform_fitted|done..]. Qed.

Lemma predict_no_index_error X o : predict X o ≠ inl IndexError.
Proof. destruct o as [|C it [c|]]; simpl; [done| |done]. by destruct (decide _). Qed.

Lemma call_no_index_error {A} name attr (method : Obj → Result (A * Obj)) p :
  (∀ o, method o ≠ inl IndexError) → (call name attr method p).1 ≠ inl IndexError.
Proof.
  intros Hm Hc. apply call_raises in Hc as [?|[?|[o Ho]]]; [done..|by eapply Hm].
Qed.

Lemma classify_one_prediction text p :
  ((X ← call "vectorizer" "transform" (transform [text]);
    call "clf" "predict" (predict X)) p).1 ≠ inr [].
Proof.
  intros Hc.
  destruct ((X ← call "vectorizer" "transform" (transform [text]);
             call "clf" "predict" (predict X)) p) as [r p'] eqn:E.
  simpl in Hc. subst r. by apply classify_inv in E as (f & c & _ & ?).
Qed.

Lemma predict_1_0_no_index_error text p : (predict_1_0 text p).1 ≠ inl IndexError.
Proof.
  unfold predict_1_0.
  pose proof (classify_one_prediction text p) as Hone.
  pose proof (call_no_index_error "vectorizer" "transform" (transform [text]) p
                (transform_no_index_error [text])) as H1.
  unfold mbind, M_bind in *.
  destruct (call "vectorizer" "transform" (transform [text]) p) as [[e|X] p1];
    [simpl in *; intros ?; by simplify_eq|].
  pose proof (call_no_index_error "clf" "predict" (predict X) p1
                (predict_no_index_error X)) as H2.
  destruct (call "clf" "predict" (predict X) p1) as [[e|preds] p2];
    [simpl in *; intros ?; by simplify_eq|].
  by destruct preds.
Qed.

Lemma predict_1_1_no_index_error body p : (predict_1_1 body p).1 ≠ inl IndexError.
Proof.
  unfold predict_1_1. set (text := decode_utf8_ignore body).
  pose proof (classify_one_prediction text p) as Hone.
  pose proof (call_no_index_error "vectorizer" "transform" (transform [text]) p
                (transform_no_index_error [text])) as H1.
  unfold mbind, M_bind in *.
  destruct (call "vectorizer" "transform" (transform [text]) p) as [[e|X] p1];
    [simpl in *; intros ?; by simplify_eq|].
  pose proof (call_no_index_error "clf" "predict" (predict X) p1
                (predict_no_index_error X)) as H2.
  destruct (call "clf" "predict" (predict X) p1) as [[e|preds] p2];
    [simpl in *; intros ?; by simplify_eq|].
  destruct preds; [done|]. by destruct (decide _).
Qed.

(** A handler answers exactly in the processes where [vectorizer] and
    [clf] are bound to fitted estimators of one width; in no process does
    the indexing of the prediction array raise [IndexError]. *)
Theorem handler_answers_iff_ready (text : string) (p : Process) :
  ((∃ resp, (predict_1_0 text p).1 = inr resp) ↔ ∃ f c, ready p f c)
  ∧ ((∃ resp, (predict_1_1 text p).1 = inr resp) ↔ ∃ f c, ready p f c)
  ∧ (predict_1_0 text p).1 ≠ inl IndexError
  ∧ (predict_1_1 text p).1 ≠ inl IndexError.
Proof.
  split_and!.
  - split; [intros [resp Hp]; by eapply predict_1_0_inv|].
    intros (f & c & Hr). eexists. by rewrite (predict_1_0_ready p f c text Hr).
  - split; [intros [resp Hp]; by eapply predict_1_1_inv|].
    intros (f & c & Hr). eexists. by rewrite (predict_1_1_ready p f c text Hr).
  - apply predict_1_0_no_index_error.
  - apply predict_1_1_no_index_error.
Qed.

(** *** The split is a partition *)

Lemma train_test_split_parts {A B} (X : Series A) (y : Series B) ts rs p r p' :
  train_test_split X y ts rs p = (inr r, p') →
  ∃ g, let n := length X in
       let perm := permutation g n in
       length y = n ∧ n - n_test_of ts n ≠ 0
       ∧ iloc X (train_rows ts n perm) = inr r.1.1.1
       ∧ iloc X (test_rows ts n perm) = inr r.1.1.2
       ∧ iloc y (train_rows ts n perm) = inr r.1.2
       ∧ iloc y (test_rows ts n perm) = inr r.2.
Proof.
  unfold train_test_split. intros Hs.
  destruct (decide (length y = length X)); [|done].
  destruct (decide (_ = 0)); [done|].
  apply bind_inv in Hs as (perm & p1 & Hp & Hs).
  assert (∃ g, perm = permutation g (length X)) as [g ->].
  { destruct rs as [seed|]; unfold draw_permutation, mret, M_ret in Hp; simplify_eq; eauto. }
  apply bind_inv in Hs as (Xtr & ? & (E1 & ->)%lift_inv & Hs).
  apply bind_inv in Hs as (Xte & ? & (E2 & ->)%lift_inv & Hs).
  apply bind_inv in Hs as (ytr & ? & (E3 & ->)%lift_inv & Hs).
  apply bind_inv in Hs as (yte & ? & (E4 & ->)%lift_inv & Hs).
  unfold mret, M_ret in Hs. simplify_eq. by exists g.
Qed.

Lemma split_rows_cover ts g n :
  n - n_test_of ts n ≠ 0 →
  test_rows ts n (permutation g n) ++ train_rows ts n (permutation g n) ≡ₚ seq 0 n.
Proof.
  intros Hn. unfold test_rows, train_rows.
  rewrite (take_ge (drop _ _)) by (rewrite length_drop, length_permutation; lia).
  by rewrite take_drop, permutation_perm.
Qed.

Lemma iloc_series_aligned {A B} (xs : list A) (ys : list B) idx r r' k i x :
  iloc (series xs) idx = inr r → iloc (series ys) idx = inr r' →
  r !! k = Some (i, x) →
  xs !! i = Some x ∧ ∃ l, r' !! k = Some (i, l) ∧ ys !! i = Some l.
Proof.
  intros Hr%iloc_series_rows Hr'%iloc_series_rows Hk.
  destruct (Forall2_lookup_r _ _ _ _ _ Hr Hk) as (j & Hj & E1 & E2). simpl in *. subst j.
  split; [done|].
  destruct (Forall2_lookup_l _ _ _ _ _ Hr' Hj) as ([i' l] & Hl & E1' & E2'). simpl in *.
  subst i'. eauto.
Qed.

(** Whatever the seed (or none), a completed split is a partition of the
    rows: every position of the frame is in exactly one of the test and
    the train part, the train part is not empty, and at each position of a
    part the text and the label are those of one row of the frame. *)
Theorem split_is_partition {A B} (xs : list A) (ys : list B) (rs : option Z)
    (p p' : Process) (X_train X_test : Series A) (y_train y_test : Series B) :
  train_test_split (series xs) (series ys) (1 # 5) rs p
    = (inr (X_train, X_test, y_train, y_test), p') →
  index X_test ++ index X_train ≡ₚ seq 0 (length xs)
  ∧ index y_train = index X_train ∧ index y_test = index X_test
  ∧ X_train ≠ []
  ∧ (∀ k i x, X_train !! k = Some (i, x) →
       xs !! i = Some x ∧ ∃ l, y_train !! k = Some (i, l) ∧ ys !! i = Some l)
  ∧ (∀ k i x, X_test !! k = Some (i, x) →
       xs !! i = Some x ∧ ∃ l, y_test !! k = Some (i, l) ∧ ys !! i = Some l).
Proof.
  intros (g & Hlen & Hn & Htr & Hte & Hytr & Hyte)%train_test_split_parts.
  rewrite !length_series in *. cbn [fst snd] in *.
  split_and!.
  - rewrite (iloc_series_index _ _ _ Hte), (iloc_series_index _ _ _ Htr).
    by apply split_rows_cover.
  - by rewrite (iloc_series_index _ _ _ Hytr), (iloc_series_index _ _ _ Htr).
  - by rewrite (iloc_series_index _ _ _ Hyte), (iloc_series_index _ _ _ Hte).
  - intros ->. apply iloc_series_index in Htr. unfold index in Htr. simpl in Htr.
    apply (f_equal length) in Htr. unfold train_rows in Htr.
    rewrite length_take, length_drop, length_permutation in Htr. simpl in Htr. lia.
  - intros k i x. by eapply iloc_series_aligned.
  - intros k i x. by eapply iloc_series_aligned.
Qed.

End Scripts.

(** ** Runs on the executable instance *)

Module Runs.
Import Toy.

Lemma completed {A} (m : M A) p a : (m p).1 = inr a → m p = (inr a, (m p).2).
Proof. destruct (m p) as [r p']. simpl. by intros ->. Qed.

Lemma fitted_vectorizer_default p f0 :
  is_Some (fitted_vectorizer p) →
  fitted_vectorizer p = Some (default f0 (fitted_vectorizer p)).
Proof. by intros [f ->]. Qed.

Lemma fitted_classifier_default p c0 :
  is_Some (fitted_classifier p) →
  fitted_classifier p = Some (default c0 (fitted_classifier p)).
Proof. by intros [c ->]. Qed.

Lemma is_Some_true {A} (o : option A) : bool_decide (is_Some o) = true → is_Some o.
Proof. apply bool_decide_eq_true_1. Qed.

Lemma served_1_0_ready : ready served_1_0 vec_1_0 clf_1_0.
Proof.
  split_and!.
  - apply fitted_vectorizer_default, is_Some_true. vm_compute. reflexivity.
  - apply fitted_classifier_default, is_Some_true. vm_compute. reflexivity.
  - vm_compute. reflexivity.
Defined.

Lemma served_1_1_ready : ready served_1_1 vec_1_1 clf_1_1.
Proof.
  split_and!.
  - apply fitted_vectorizer_default, is_Some_true. vm_compute. reflexivity.
  - apply fitted_classifier_default, is_Some_true. vm_compute. reflexivity.
  - vm_compute. reflexivity.
Defined.

(** The claim of a ["spam"]/["ham"] label fails on 1.1: its answer to a
    spam sentence of the corpus is a header line. *)
Lemma header_response_has_no_label :
  (predict_1_1 "Claim your free prize now!!!" served_1_1).1
    = inr {[ "header" := "X-Spam-ML-Score: yes" ]}
  ∧ ¬ has_label {[ "header" := "X-Spam-ML-Score: yes" ]}.
Proof.
  split; [vm_compute; reflexivity|]. by apply no_label_in_header.
Qed.

Lemma predict_response_by_threshold_run :
  ready served_1_0 vec_1_0 clf_1_0
  ∧ (predict_1_0 "free lottery ticket" served_1_0).1
    = inr {[ "prediction" :=
               if Qlt_le_dec (1 # 2) (predict_score clf_1_0 (features vec_1_0 "free lottery ticket"))
               then "spam" else "ham" ]}.
Proof.
  exact (conj served_1_0_ready
           (proj1 (predict_response_by_threshold served_1_0 vec_1_0 clf_1_0
                     "free lottery ticket" "free lottery ticket" served_1_0_ready))).
Defined.

(** A body that is not text is not refused: the byte 0xFF is dropped and
    the rest is classified. *)
Lemma undecodable_body_is_answered :
  decode_utf8_ignore (String "255"%char "free lottery ticket") = "free lottery ticket"
  ∧ (predict_1_1 (String "255"%char "free lottery ticket") served_1_1).1
    = inr {[ "header" := "X-Spam-ML-Score: yes" ]}
  ∧ (predict_1_1 (String "255"%char "free lottery ticket") served_1_1).1
    ≠ inl InvalidInputError.
Proof.
  assert (E : (predict_1_1 (String "255"%char "free lottery ticket") served_1_1).1
              = inr {[ "header" := "X-Spam-ML-Score: yes" ]})
    by (vm_compute; reflexivity).
  split_and!; [vm_compute; reflexivity|exact E|congruence].
Qed.

Lemma predict_accepts_every_body_run :
  ready served_1_1 vec_1_1 clf_1_1
  ∧ ∃ resp, predict_1_0 "hello" served_1_1 = (inr resp, served_1_1).
Proof.
  exact (conj served_1_1_ready
           (proj1 (proj2 (predict_accepts_every_body served_1_1 vec_1_1 clf_1_1
                            (String "255"%char "") "hello" served_1_1_ready)))).
Defined.

Lemma script_1_0_completes : script_1_0 (boot ∅ 0%Z) = (inr (), served_1_0).
Proof.
  unfold served_1_0. refine (completed (script_1_0) _ () _).
  vm_compute. reflexivity.
Defined.

Lemma script_1_1_completes : script_1_1 (boot ∅ 0%Z) = (inr (), served_1_1).
Proof.
  unfold served_1_1. refine (completed (script_1_1) _ () _).
  vm_compute. reflexivity.
Defined.





Lemma fit_rejects_degenerate_input_run :
  fit (mkMatrix 0 [[]; []]) [1%Z; 1%Z] (LogisticRegression 1 100 None)
    = inl DegenerateDatasetError
  ∧ fit_transform ["!!!"; "a"] (TfidfVectorizer None) = inl EmptyCorpusError.
Proof.
  destruct (fit_rejects_degenerate_input 1 100 None (mkMatrix 0 [[]; []])
              [1%Z; 1%Z] 1%Z None ["!!!"; "a"]) as (T1 & T2 & _).
  - intros l Hl.
    repeat (apply elem_of_cons in Hl as [->|Hl]; [reflexivity|]).
    by apply elem_of_nil in Hl.
  - intros d Hd.
    repeat (apply elem_of_cons in Hd as [->|Hd]; [reflexivity|]).
    by apply elem_of_nil in Hd.
  - exact (conj T1 T2).
Defined.

Lemma corpus_tokens : ∀ d, d ∈ spam_texts ++ ham_texts → analyze d ≠ [].
Proof.
  apply Forall_forall. refine (bool_decide_unpack _ _). vm_compute. reflexivity.
Defined.

Lemma scripts_complete_run :
  ∃ p p', script_1_0 (boot ∅ 0%Z) = (inr (), p)
          ∧ script_1_1 (boot ∅ 0%Z) = (inr (), p').
Proof. exact (@scripts_complete libs ∅ 0%Z corpus_tokens). Defined.

Lemma training_is_deterministic_run :
  runs_alike (train_on_1_0 frame (Some 42%Z))
    (boot ∅ 0%Z) (boot {[ "spam_model.pkl" := VArray [] ]} 7%Z).
Proof.
  exact (proj1 (@training_is_deterministic libs frame 42%Z
                  ∅ {[ "spam_model.pkl" := VArray [] ]} 0%Z 7%Z)).
Defined.

Lemma joblib_round_trip_run :
  (joblib_dump (VObj (TfidfVectorizer None)) "tfidf_vectorizer.pkl";;
   joblib_load "tfidf_vectorizer.pkl") (boot ∅ 0%Z)
  = (inr (VObj (TfidfVectorizer None)),
     (joblib_dump (VObj (TfidfVectorizer None)) "tfidf_vectorizer.pkl" (boot ∅ 0%Z)).2).
Proof.
  exact (proj1 (@joblib_round_trip libs (TfidfVectorizer None)
                  "tfidf_vectorizer.pkl" (@boot libs ∅ 0%Z))).
Defined.

Lemma transform_drops_unknown_tokens_run :
  ∃ X, transform ["free zzz unseen lottery"] (TfidfVectorizer (Some vec_1_0))
       = inr (X, TfidfVectorizer (Some vec_1_0))
    ∧ (vec_transform vec_1_0 ["free zzz unseen lottery"]).1 = vec_1_0.
Proof.
  destruct (@transform_drops_unknown_tokens libs vec_1_0 ["free zzz unseen lottery"])
    as (X & T1 & T2 & _).
  exact (ex_intro _ X (conj T1 T2)).
Defined.

(** Without a seed the split follows the generator state of the machine:
    two machines that differ in it alone split the frame differently. *)
Lemma unseeded_split_differs :
  first_train_row (train_on_1_1 frame None (boot ∅ 0%Z)).2 = Some 120
  ∧ first_train_row (train_on_1_1 frame None (boot ∅ 1%Z)).2 = Some 121.
Proof. split; vm_compute; reflexivity. Qed.

Lemma reload_completes :
  (save_artifacts;; serve_setup) trained_1_0 = (inr (), reloaded_1_0).
Proof.
  unfold reloaded_1_0. refine (completed (save_artifacts;; serve_setup) _ () _).
  vm_compute. reflexivity.
Defined.

Lemma reload_keeps_model_run :
  (save_artifacts;; serve_setup) trained_1_0 = (inr (), reloaded_1_0)
  ∧ globals reloaded_1_0 !! "clf" = globals trained_1_0 !! "clf"
  ∧ globals reloaded_1_0 !! "vectorizer" = globals trained_1_0 !! "vectorizer".
Proof.
  destruct (@reload_keeps_model libs trained_1_0 reloaded_1_0 reload_completes)
    as (T1 & T2 & _).
  exact (conj reload_completes (conj T1 T2)).
Defined.

Lemma script_effects_run :
  np_random served_1_0 = 0%Z ∧ np_random served_1_1 = 0%Z ∧ stdout served_1_1 = [].
Proof.
  destruct (@script_effects libs ∅ 0%Z served_1_0 served_1_1
              script_1_0_completes script_1_1_completes) as (T1 & T2 & _ & T4 & _).
  exact (conj T1 (conj T2 T4)).
Defined.

Lemma script_1_0_completes_elsewhere :
  script_1_0 (boot {[ "spam_model.pkl" := VArray [] ]} 7%Z)
  = (inr (), served_1_0_elsewhere).
Proof.
  unfold served_1_0_elsewhere. refine (completed (script_1_0) _ () _).
  vm_compute. reflexivity.
Defined.

Lemma script_1_1_completes_elsewhere :
  script_1_1 (boot {[ "spam_model.pkl" := VArray [] ]} 7%Z)
  = (inr (), served_1_1_elsewhere).
Proof.
  unfold served_1_1_elsewhere. refine (completed (script_1_1) _ () _).
  vm_compute. reflexivity.
Defined.

Lemma served_state_same_on_every_machine_run :
  globals served_1_0 = globals served_1_0_elsewhere
  ∧ globals served_1_1 = globals served_1_1_elsewhere.
Proof.
  destruct (@served_state_same_on_every_machine libs
              ∅ {[ "spam_model.pkl" := VArray [] ]} 0%Z 7%Z
              served_1_0 served_1_0_elsewhere served_1_1 served_1_1_elsewhere
              script_1_0_completes script_1_0_completes_elsewhere
              script_1_1_completes script_1_1_completes_elsewhere)
    as ((T1 & _) & (T2 & _)).
  exact (conj T1 T2).
Defined.

Lemma versions_train_same_model_run :
  globals served_1_0 !! "clf" = globals served_1_1 !! "clf"
  ∧ globals served_1_0 !! "vectorizer" = globals served_1_1 !! "vectorizer"
  ∧ fs served_1_0 !! "spam_model.pkl" = fs served_1_1 !! "spam_model.pkl".
Proof.
  destruct (@versions_train_same_model libs (@boot libs ∅ 0%Z) served_1_0 served_1_1
              script_1_0_completes script_1_1_completes) as (T1 & T2 & _ & T4 & _).
  exact (conj T1 (conj T2 T4)).
Defined.

Lemma split_is_partition_run :
  index [(2, "c")] ++ index [(3, "d"); (4, "e"); (0, "a"); (1, "b")] ≡ₚ seq 0 5
  ∧ index [(3, 0%Z); (4, 1%Z); (0, 1%Z); (1, 0%Z)]
    = index [(3, "d"); (4, "e"); (0, "a"); (1, "b")].
Proof.
  destruct (@split_is_partition libs string Z ["a"; "b"; "c"; "d"; "e"]
              [1%Z; 0%Z; 1%Z; 0%Z; 1%Z] (Some 42%Z) (@boot libs ∅ 0%Z) (@boot libs ∅ 0%Z)
              [(3, "d"); (4, "e"); (0, "a"); (1, "b")] [(2, "c")]
              [(3, 0%Z); (4, 1%Z); (0, 1%Z); (1, 0%Z)] [(2, 1%Z)])
    as (T1 & T2 & _).
  - vm_compute. reflexivity.
  - exact (conj T1 T2).
Defined.

Lemma decode_ignore_projection_run :
  decode_utf8_ignore "Win a free lottery now" = "Win a free lottery now".
Proof.
  exact (proj1 (@decode_ignore_projection libs "Win a free lottery now") eq_refl).
Defined.

End Runs.
